(** * NIFTY-50 price utilities: a shallow embedding of [main.py] and
      [stock_price.py], and the properties of their specification.

    Layout: the Python runtime fragment the two files rely on ([Py]), its
    three builtins worked out on ASCII text ([PyASCII]), the BeautifulSoup
    tree operations ([bs4]), the effect monad shared by the stateful code
    ([Eff]), the two source files ([stock_price], [main]), and then the
    lemmas and theorems.

    Modelling conventions.
    - A Python [str] is a Rocq [string] holding the text in UTF-8, one
      character of the [string] per byte.  Equality, concatenation, [in],
      [startswith], [endswith] and [replace] on the bytes agree with the
      same operations on the code points, since no encoded character
      starts inside another.
    - [str.lower], [str.strip] and [float] depend on the Unicode character
      database and on binary floating point.  They are the methods of the
      class [Py.builtins], together with the three laws the proofs use; the
      embedding of the two source files and every theorem about them is
      stated for an arbitrary instance.  [PyASCII] works the three out for
      ASCII text, where it returns what CPython returns, and is the
      instance the examples are run with.
    - A Python [float] is a [Py.pyfloat]: [nan], a signed infinity, or a
      finite value written as the exact decimal [(-1)^neg * m * 10^e], with
      [e <= 0] as large as the value allows.  Every binary64 number has
      such a decimal.
    - A [dict] is an association list in insertion order with unique keys;
      assignment to an existing key keeps its position, as in CPython.
    - [BeautifulSoup(html, 'html.parser')] is the library's parser; the
      model starts from the tree it returns. *)

From stdpp Require Import list strings.
From Stdlib Require Import ZArith NArith Ascii String Lia.

Set Warnings "-register-all".
Local Open Scope string_scope.
Local Open Scope list_scope.

(* ================================================================== *)
(** ** The Python fragment *)
(* ================================================================== *)

Module Py.

(** Exceptions.  [except Exception] catches the first kind only; a bare
    [except:] and [finally] see both. *)
Inductive exn : Type :=
| Exception (name : string)
| BaseException (name : string).

Definition is_Exception (e : exn) : bool :=
  match e with Exception _ => true | BaseException _ => false end.

(** The outcome of a call: a value or a raised exception. *)
Inductive result (A : Type) : Type :=
| Ret (a : A)
| Raise (e : exn).
Arguments Ret {A} a.
Arguments Raise {A} e.

(** *** [str] operations that work on the text as it stands *)

(** [s.replace(c, '')] for a one-character [c]. *)
Fixpoint remove_char (c : ascii) (s : string) : string :=
  match s with
  | "" => ""
  | String d s' =>
      if Ascii.eqb d c then remove_char c s' else String d (remove_char c s')
  end.

(** [s.startswith(p)] *)
Fixpoint startswith (s p : string) : bool :=
  match p, s with
  | "", _ => true
  | String _ _, "" => false
  | String a p', String b s' => Ascii.eqb a b && startswith s' p'
  end.

(** [sub in s] *)
Fixpoint contains (sub s : string) : bool :=
  startswith s sub ||
  match s with
  | "" => false
  | String _ s' => contains sub s'
  end.

(** [s.endswith(suffix)] *)
Fixpoint endswith (s suffix : string) : bool :=
  String.eqb s suffix ||
  match s with
  | "" => false
  | String _ s' => endswith s' suffix
  end.

(** [s.replace(old, '')] for a non-empty [old]: the occurrences of [old]
    are dropped from left to right, without overlap.  [skip] counts the
    characters of an occurrence still to drop. *)
Fixpoint remove_all_from (skip : nat) (old s : string) : string :=
  match s with
  | "" => ""
  | String c s' =>
      match skip with
      | S k => remove_all_from k old s'
      | O =>
          if startswith s old
          then remove_all_from (String.length old - 1) old s'
          else String c (remove_all_from 0 old s')
      end
  end.

Definition remove_all (old s : string) : string := remove_all_from 0 old s.

(** *** [float] values and [float(str)] *)

Inductive pyfloat : Type :=
| NaN
| Inf (neg : bool)
| Dec (neg : bool) (m : N) (e : Z).

Definition isfinite (x : pyfloat) : bool :=
  match x with Dec _ _ _ => true | _ => false end.

(** [x == 0] *)
Definition eq_zero (x : pyfloat) : bool :=
  match x with Dec _ m _ => (m =? 0)%N | _ => false end.

(** *** The builtins that read the Unicode tables or round *)

(** [s.lower()], [s.strip()] and [float(s)], where [None] stands for
    [ValueError].  The laws: lowercasing leaves the empty string and a
    lowercased string as they are, and a stripped string has nothing left
    to strip. *)
Class builtins : Type := Builtins {
  lower : string -> string;
  strip : string -> string;
  float : string -> option pyfloat;
  lower_of_empty : lower "" = "";
  lower_of_lower : forall s, lower (lower s) = lower s;
  strip_of_strip : forall s, strip (strip s) = strip s
}.

(** *** [dict] with [str] keys, in insertion order *)

Definition dict (V : Type) : Type := list (string * V).

(** [d[k] = v]: an existing key keeps its place. *)
Fixpoint setitem {V} (k : string) (v : V) (d : dict V) : dict V :=
  match d with
  | [] => [(k, v)]
  | (k', v') :: d' =>
      if String.eqb k' k then (k', v) :: d' else (k', v') :: setitem k v d'
  end.

(** [d[k]]: [None] stands for [KeyError]. *)
Fixpoint getitem {V} (k : string) (d : dict V) : option V :=
  match d with
  | [] => None
  | (k', v) :: d' => if String.eqb k' k then Some v else getitem k d'
  end.

(** [k in d] *)
Definition has_key {V} (k : string) (d : dict V) : bool :=
  existsb (fun kv => String.eqb (fst kv) k) d.

(** [d.update(other)] *)
Definition update {V} (d other : dict V) : dict V :=
  fold_left (fun acc kv => setitem (fst kv) (snd kv) acc) other d.

(** [not d] *)
Definition is_empty {V} (d : dict V) : bool :=
  match d with [] => true | _ :: _ => false end.

Definition keys {V} (d : dict V) : list string := map fst d.

(** *** [logging] levels *)
Inductive level : Type := DEBUG | INFO | WARNING | ERROR.

End Py.

(* ================================================================== *)
(** ** The builtins on ASCII text *)
(* ================================================================== *)

(** [str.lower], [str.strip] and [float] for a [str] of code points below
    128, where the Unicode tables reduce to the ASCII ones of the C
    library.  A byte above 127 is left alone by [lower] and [strip] and
    rejected by [float]; CPython does more on such text, and no example
    below contains any. *)
Module PyASCII.
Import Py.

(** *** Characters *)

Definition code (c : ascii) : N := N_of_ascii c.

(** [str.isspace] on ASCII: TAB..CR, FS..US and space. *)
Definition isspace (c : ascii) : bool :=
  let n := code c in
  ((9 <=? n) && (n <=? 13) || (28 <=? n) && (n <=? 31) || (n =? 32))%N.

(** C's [Py_ISSPACE], the blanks [float()] strips from an ASCII string. *)
Definition Py_ISSPACE (c : ascii) : bool :=
  let n := code c in ((9 <=? n) && (n <=? 13) || (n =? 32))%N.

Definition Py_ISDIGIT (c : ascii) : bool :=
  let n := code c in ((48 <=? n) && (n <=? 57))%N.

Definition lower_char (c : ascii) : ascii :=
  let n := code c in
  if ((65 <=? n) && (n <=? 90))%N then ascii_of_N (n + 32) else c.

(** *** [str] methods *)

Fixpoint lower (s : string) : string :=
  match s with
  | "" => ""
  | String c s' => String (lower_char c) (lower s')
  end.

Fixpoint lstrip (s : string) : string :=
  match s with
  | "" => ""
  | String c s' => if isspace c then lstrip s' else s
  end.

Fixpoint rstrip (s : string) : string :=
  match s with
  | "" => ""
  | String c s' =>
      match rstrip s' with
      | "" => if isspace c then "" else String c ""
      | r => String c r
      end
  end.

(** [s.strip()] *)
Definition strip (s : string) : string := rstrip (lstrip s).

(** *** [float(str)] *)

Definition digit_value (c : ascii) : N := (code c - 48)%N.

Fixpoint span_digits (s : list ascii) : list ascii * list ascii :=
  match s with
  | c :: s' =>
      if Py_ISDIGIT c
      then let '(ds, rest) := span_digits s' in (c :: ds, rest)
      else ([], s)
  | [] => ([], [])
  end.

Definition digits_to_N (ds : list ascii) : N :=
  fold_left (fun acc c => (10 * acc + digit_value c)%N) ds 0%N.

(** The quotient [num / den] rounded to the nearest integer, a tie to the
    even one. *)
Definition round_half_even (num den : N) : N :=
  let q := (num / den)%N in
  match (2 * (num mod den) ?= den)%N with
  | Lt => q
  | Gt => (q + 1)%N
  | Eq => if N.even q then q else (q + 1)%N
  end.

(** Cancels factors of ten while the exponent is negative. *)
Fixpoint cancel_tens (fuel : nat) (m : N) (e : Z) : N * Z :=
  match fuel with
  | O => (m, e)
  | S fuel' =>
      if (e <? 0)%Z && (m mod 10 =? 0)%N
      then cancel_tens fuel' (m / 10)%N (e + 1)%Z
      else (m, e)
  end.

(** The number [(-1)^neg * q * 2^k] as a decimal in normal form. *)
Definition dyadic (neg : bool) (q : N) (k : Z) : pyfloat :=
  if (q =? 0)%N then Dec neg 0 0
  else if (0 <=? k)%Z then Dec neg (q * 2 ^ Z.to_N k) 0
  else
    let '(m, e) := cancel_tens (Z.to_nat (- k)) (q * 5 ^ Z.to_N (- k)) k in
    Dec neg m e.

(** [PyOS_string_to_double] on the decimal [(-1)^neg * m * 10^e]: the
    nearest binary64 number, a tie to the even significand; an infinity
    when that is out of range, a zero when the value rounds to nothing.
    [fl] is the binary exponent of the value, [k] that of the last place
    of its 53-bit significand, not below the subnormal one. *)
Definition to_binary64 (neg : bool) (m : N) (e : Z) : pyfloat :=
  if (m =? 0)%N then Dec neg 0 0
  else
    let num := if (0 <=? e)%Z then (m * 10 ^ Z.to_N e)%N else m in
    let den := if (0 <=? e)%Z then 1%N else (10 ^ Z.to_N (- e))%N in
    let l := (Z.of_N (N.log2 num) - Z.of_N (N.log2 den))%Z in
    let fl :=
      if (den * 2 ^ Z.to_N l <=? num * 2 ^ Z.to_N (- l))%N then l
      else (l - 1)%Z in
    let k := Z.max (fl - 52) (-1074) in
    let q := round_half_even (num * 2 ^ Z.to_N (- k)) (den * 2 ^ Z.to_N k) in
    if (1024 <=? Z.of_N (N.log2 q) + k)%Z then Inf neg
    else dyadic neg q k.

(** The float for the digits [ds] scaled by [10^e]. *)
Definition decimal (neg : bool) (ds : list ascii) (e : Z) : pyfloat :=
  to_binary64 neg (digits_to_N ds) e.

(** An optional sign. *)
Definition take_sign (s : list ascii) : bool * list ascii :=
  match s with
  | "-"%char :: s' => (true, s')
  | "+"%char :: s' => (false, s')
  | _ => (false, s)
  end.

Definition lower_list (s : list ascii) : list ascii := map lower_char s.

(** [_Py_parse_inf_or_nan]: sign, then [inf], [infinity] or [nan] in any
    letter case, and nothing after. *)
Definition parse_inf_or_nan (s : list ascii) : option pyfloat :=
  let '(neg, body) := take_sign s in
  let l := string_of_list_ascii (lower_list body) in
  if String.eqb l "inf" || String.eqb l "infinity" then Some (Inf neg)
  else if String.eqb l "nan" then Some NaN
  else None.

(** The exponent part: empty, or [e]/[E], an optional sign and at least
    one digit, up to the end of the text. *)
Definition parse_exponent (s : list ascii) : option Z :=
  match s with
  | [] => Some 0%Z
  | c :: s' =>
      if Ascii.eqb (lower_char c) "e" then
        let '(neg, s'') := take_sign s' in
        match span_digits s'' with
        | ((_ :: _) as ds, []) =>
            let n := Z.of_N (digits_to_N ds) in
            Some (if neg then (- n)%Z else n)
        | _ => None
        end
      else None
  end.

(** [_PyOS_ascii_strtod] on the whole text: sign, digits, an optional
    point and digits, with at least one digit, then the exponent. *)
Definition parse_number (s : list ascii) : option pyfloat :=
  let '(neg, s1) := take_sign s in
  let '(ip, s2) := span_digits s1 in
  let '(fp, s3) :=
    match s2 with
    | "."%char :: s2' => span_digits s2'
    | _ => ([], s2)
    end in
  match ip ++ fp with
  | [] => None
  | ds =>
      match parse_exponent s3 with
      | Some ex => Some (decimal neg ds (ex - Z.of_nat (List.length fp)))
      | None => None
      end
  end.

Fixpoint lstrip_c (s : list ascii) : list ascii :=
  match s with
  | c :: s' => if Py_ISSPACE c then lstrip_c s' else s
  | [] => []
  end.

(** Trailing blanks are dropped while more than one character is left. *)
Fixpoint rstrip_c (s : list ascii) : list ascii :=
  match s with
  | [] => []
  | [c] => [c]
  | c :: s' =>
      match rstrip_c s' with
      | [d] => if Py_ISSPACE d then [c] else [c; d]
      | r => c :: r
      end
  end.

(** [float_from_string_inner] *)
Definition float_inner (s : list ascii) : option pyfloat :=
  match lstrip_c s with
  | [] => None
  | s1 =>
      let s2 := rstrip_c s1 in
      match parse_inf_or_nan s2 with
      | Some x => Some x
      | None => parse_number s2
      end
  end.

(** [_Py_string_to_number_with_underscores]: an underscore is accepted
    between two digits only, and removed. *)
Fixpoint strip_underscores (prev : ascii) (s : list ascii)
  : option (list ascii) :=
  match s with
  | [] => if Ascii.eqb prev "_" then None else Some []
  | c :: s' =>
      if Ascii.eqb c "_" then
        if Py_ISDIGIT prev then strip_underscores c s' else None
      else if Ascii.eqb prev "_" && negb (Py_ISDIGIT c) then None
      else option_map (cons c) (strip_underscores c s')
  end.

(** [float(s)] for an ASCII [s]: [None] stands for [ValueError]. *)
Definition float (s : string) : option pyfloat :=
  let l := list_ascii_of_string s in
  if existsb (Ascii.eqb "_") l then
    match strip_underscores "000" l with
    | Some l' => float_inner l'
    | None => None
    end
  else float_inner l.

(** *** The laws, and the instance *)

Lemma lower_char_idem (c : ascii) : lower_char (lower_char c) = lower_char c.
Proof. destruct c as [[] [] [] [] [] [] [] []]; reflexivity. Qed.

Lemma lower_idem (s : string) : lower (lower s) = lower s.
Proof.
  induction s as [|c s IH]; simpl; [reflexivity|].
  now rewrite lower_char_idem, IH.
Qed.

Lemma isspace_lstrip c s s' : lstrip s = String c s' -> isspace c = false.
Proof.
  induction s as [|a s IH]; simpl; [discriminate|].
  destruct (isspace a) eqn:E; [exact IH|]. now intros [= <- _].
Qed.

Lemma lstrip_head c s : isspace c = false -> lstrip (String c s) = String c s.
Proof. simpl. now intros ->. Qed.

(** [rstrip] keeps a string that does not start with a blank starting
    with the same character. *)
Lemma rstrip_head c s :
  isspace c = false -> exists s', rstrip (String c s) = String c s'.
Proof.
  intros Hc. simpl. destruct (rstrip s); [rewrite Hc|]; now eexists.
Qed.

Lemma rstrip_idem s : rstrip (rstrip s) = rstrip s.
Proof.
  induction s as [|c s IH]; [reflexivity|]. simpl.
  destruct (rstrip s) as [|a r] eqn:E.
  - destruct (isspace c) eqn:Hc; [reflexivity|]. simpl. now rewrite Hc.
  - cbn [rstrip]. cbn [rstrip] in IH. now rewrite IH.
Qed.

(** Stripping a stripped string changes nothing: the result has no blank
    at either end. *)
Lemma strip_idem s : strip (strip s) = strip s.
Proof.
  unfold strip. destruct (lstrip s) as [|c s'] eqn:E; [reflexivity|].
  apply isspace_lstrip in E.
  destruct (rstrip_head c s' E) as [r Hr]. rewrite Hr.
  rewrite (lstrip_head c r E), <- Hr. apply rstrip_idem.
Qed.

(** The builtins the examples are run with. *)
#[global] Instance builtins : Py.builtins := {|
  Py.lower := lower;
  Py.strip := strip;
  Py.float := float;
  Py.lower_of_empty := eq_refl;
  Py.lower_of_lower := lower_idem;
  Py.strip_of_strip := strip_idem
|}.

End PyASCII.

(* ================================================================== *)
(** ** BeautifulSoup trees *)
(* ================================================================== *)

Module bs4.

(** A parsed page: text, comments and elements.  Attributes are left out,
    the code reads none. *)
Inductive node : Type :=
| NavigableString (s : string)
| Comment (s : string)
| Tag (name : string) (contents : list node).

(** The top-level nodes of a page. *)
Definition html : Type := list node.

(** [BeautifulSoup(html, 'html.parser')]: the root object is itself a tag,
    named [[document]]. *)
Definition BeautifulSoup (markup : html) : node := Tag "[document]" markup.

(** [tag.descendants]: every node below [n], in document order. *)
Fixpoint descendants (n : node) : list node :=
  match n with
  | Tag _ cs =>
      (fix go (l : list node) : list node :=
         match l with
         | [] => []
         | c :: l' => c :: descendants c ++ go l'
         end) cs
  | _ => []
  end.

Definition is_tag (name : string) (n : node) : bool :=
  match n with
  | Tag name' _ => String.eqb name' name
  | _ => false
  end.

(** [tag.find_all(name)] *)
Definition find_all (name : string) (n : node) : list node :=
  List.filter (is_tag name) (descendants n).

(** [tag.find(name)] *)
Definition find (name : string) (n : node) : option node :=
  match find_all name n with
  | [] => None
  | t :: _ => Some t
  end.

(** [tag.text]: the text nodes below the tag, joined; comments are not
    part of it. *)
Definition text (n : node) : string :=
  fold_right
    (fun d acc =>
       match d with
       | NavigableString s => s +:+ acc
       | _ => acc
       end)
    "" (descendants n).

End bs4.

(* ================================================================== *)
(** ** Effects: state, exceptions, [try], and what a run does outside *)
(* ================================================================== *)

Module Eff.
Import Py.

(** A computation over a store [St] returns or raises, leaves a store,
    and lists the events [Ev] it caused, oldest first.  The store
    survives an exception, as the fields of a Python object do. *)
Definition M (St Ev A : Type) : Type := St -> result A * St * list Ev.

Definition value {St Ev A} (out : result A * St * list Ev) : result A :=
  fst (fst out).
Definition store {St Ev A} (out : result A * St * list Ev) : St :=
  snd (fst out).
Definition events {St Ev A} (out : result A * St * list Ev) : list Ev :=
  snd out.

Section Ops.
Context {St Ev : Type}.

Definition ret {A} (a : A) : M St Ev A := fun st => (Ret a, st, []).

(** An outcome reached after the events [evs] have happened. *)
Definition after {A} (evs : list Ev) (out : result A * St * list Ev)
  : result A * St * list Ev :=
  let '(r, st, evs') := out in (r, st, evs ++ evs').

Definition bind {A B} (m : M St Ev A) (k : A -> M St Ev B) : M St Ev B :=
  fun st =>
    match m st with
    | (Ret a, st', evs) => after evs (k a st')
    | (Raise e, st', evs) => (Raise e, st', evs)
    end.

Definition raise {A} (e : exn) : M St Ev A := fun st => (Raise e, st, []).

Definition gets {A} (f : St -> A) : M St Ev A :=
  fun st => (Ret (f st), st, []).

Definition modify (f : St -> St) : M St Ev unit :=
  fun st => (Ret tt, f st, []).

Definition emit (ev : Ev) : M St Ev unit := fun st => (Ret tt, st, [ev]).

(** [try: body / except Exception as e: handler e] *)
Definition try_except {A} (body : M St Ev A) (handler : exn -> M St Ev A)
  : M St Ev A :=
  fun st =>
    match body st with
    | (Raise e, st', evs) =>
        if is_Exception e then after evs (handler e st')
        else (Raise e, st', evs)
    | out => out
    end.

(** [try: body / except: handler], the bare clause that catches all. *)
Definition try_except_all {A} (body : M St Ev A) (handler : M St Ev A)
  : M St Ev A :=
  fun st =>
    match body st with
    | (Raise _, st', evs) => after evs (handler st')
    | out => out
    end.

(** [try: body / finally: final].  The final block always runs; if it
    raises, its exception replaces the pending outcome. *)
Definition try_finally {A} (body : M St Ev A) (final : M St Ev unit)
  : M St Ev A :=
  fun st =>
    let '(r, st', evs) := body st in
    match final st' with
    | (Ret _, st'', evs') => (r, st'', evs ++ evs')
    | (Raise e, st'', evs') => (Raise e, st'', evs ++ evs')
    end.

(** A statement executed only when [b] holds. *)
Definition when (b : bool) (m : M St Ev unit) : M St Ev unit :=
  if b then m else ret tt.

End Ops.

(** Runs a computation on a part of the store. *)
Definition zoom {St Sub Ev A} (get : St -> Sub) (set : Sub -> St -> St)
    (m : M Sub Ev A) : M St Ev A :=
  fun st => let '(r, sub, evs) := m (get st) in (r, set sub st, evs).

End Eff.

Notation "'let*' x ':=' m 'in' k" := (Eff.bind m (fun x => k))
  (at level 10, x name, m at level 100, k at level 200).
Notation "m ';;' k" := (Eff.bind m (fun _ => k))
  (at level 100, k at level 200, right associativity).

(* ================================================================== *)
(** ** stock_price.py *)
(* ================================================================== *)

Module stock_price.
Import Py Eff.

Section Methods.
Context {PY : builtins}.

(** [Dict[str, float]]: company name to price. *)
Definition PriceTable : Type := dict pyfloat.

(** *** The browser, as the scraper sees it *)

Definition session : Type := nat.

(** Methods called on a driver object. *)
Inductive driver_op : Type :=
| Get (url : string)                 (* driver.get(url) *)
| Wait_until_table (timeout : nat)   (* WebDriverWait(driver, t).until(...) *)
| Page_source                        (* driver.page_source *)
| Find_Next                          (* driver.find_element(By.LINK_TEXT, "Next") *)
| Click                              (* next_button.click() *)
| Quit.                              (* driver.quit() *)

(** What a call into selenium answers: it returns, or it raises.  The
    page carried by [Returns] is read by [Page_source] only. *)
Inductive reply : Type :=
| Returns (page : bs4.html)
| Raises (e : exn).

Inductive message : Type :=
| Chrome_WebDriver_initialized
| Loading (url : string)
| Found_second_page
| Successfully_scraped (n : nat)
| Error_scraping_prices (e : exn)
| Browser_closed
| Table_not_found
| Could_not_parse_price (company_name price_text : string)
| Could_not_click_next_page (e : exn).

Definition log_record : Type := level * message.

(** What a run does to the outside, in order. *)
Inductive event : Type :=
| Enter_scrape_all_prices                          (* the method was entered *)
| New_session (options : list string) (created : option session)
                                                   (* webdriver.Chrome(options=...) *)
| Call (sid : session) (op : driver_op)
| Sleep (seconds : nat)
| Log (r : log_record)
| Print_loading
| Print_loaded (n : nat).

(** The outside world: the answers selenium will give, in the order the
    calls are made, and the next session number.  When the answers run
    out the browser is gone and every call raises.  Logging and
    [time.sleep] never raise. *)
Record world : Type := World {
  script : list reply;
  next_session : session
}.

Definition take_reply (w : world) : reply * world :=
  match script w with
  | [] => (Raises (Exception "WebDriverException"), w)
  | r :: rest => (r, {| script := rest; next_session := next_session w |})
  end.

Definition bump_session (w : world) : world :=
  {| script := script w; next_session := S (next_session w) |}.

(** *** [ScreenerPriceScraper] *)

Record ScreenerPriceScraper : Type := Scraper {
  headless : bool;
  driver : option session;
  stock_data : PriceTable
}.

(** [__init__] *)
Definition init (headless : bool) : ScreenerPriceScraper :=
  {| headless := headless; driver := None; stock_data := [] |}.

Definition SCREENER_URL : string := "https://www.screener.in/company/NIFTY/".

Definition set_driver (d : option session) (s : ScreenerPriceScraper) :=
  {| headless := headless s; driver := d; stock_data := stock_data s |}.

Definition set_stock_data (t : PriceTable) (s : ScreenerPriceScraper) :=
  {| headless := headless s; driver := driver s; stock_data := t |}.

(** Methods of the scraper run over the object and the world. *)
Definition Method (A : Type) : Type :=
  M (ScreenerPriceScraper * world) event A.

Definition self : Method ScreenerPriceScraper := gets fst.

Definition assign (f : ScreenerPriceScraper -> ScreenerPriceScraper)
  : Method unit :=
  modify (fun st => (f (fst st), snd st)).

Definition log {Self} (l : level) (m : message)
  : M (Self * world) event unit :=
  emit (Log (l, m)).

(** Several records logged in a row. *)
Definition log_all {Self} (rs : list log_record)
  : M (Self * world) event unit :=
  fun st => (Ret tt, st, map Log rs).

(** [time.sleep(n)] *)
Definition sleep {Self} (seconds : nat) : M (Self * world) event unit :=
  emit (Sleep seconds).

(** The next answer of selenium. *)
Definition answer {Self} : M (Self * world) event reply :=
  fun st =>
    let '(r, w) := take_reply (snd st) in (Ret r, (fst st, w), []).

(** A method call on [self.driver]; on [None] Python raises
    [AttributeError]. *)
Definition driver_call (op : driver_op) : Method bs4.html :=
  let* s := self in
  match driver s with
  | None => raise (Exception "AttributeError")
  | Some sid =>
      emit (Call sid op) ;;
      let* r := answer in
      match r with
      | Returns page => ret page
      | Raises e => raise e
      end
  end.

Definition chrome_options (headless : bool) : list string :=
  (if headless then ["--headless"] else []) ++
  ["--no-sandbox"; "--disable-dev-shm-usage";
   "--disable-blink-features=AutomationControlled";
   "user-agent=Mozilla/5.0 (Windows NT 10.0; Win64; x64) AppleWebKit/537.36 (KHTML, like Gecko) Chrome/120.0.0.0 Safari/537.36"].

(** [webdriver.Chrome(options=chrome_options)] *)
Definition webdriver_Chrome (options : list string) : Method session :=
  let* r := answer in
  match r with
  | Returns _ =>
      let* sid := gets (fun st => next_session (snd st)) in
      modify (fun st => (fst st, bump_session (snd st))) ;;
      emit (New_session options (Some sid)) ;;
      ret sid
  | Raises e =>
      emit (New_session options None) ;;
      raise e
  end.

Definition _setup_driver : Method unit :=
  let* s := self in
  let* sid := webdriver_Chrome (chrome_options (headless s)) in
  assign (set_driver (Some sid)) ;;
  log INFO Chrome_WebDriver_initialized.

(** *** [_parse_table] *)

(** One turn of the loop over the rows: the table after the row, and
    what the row logs.  No operation of the loop body can raise here, so
    the outer [except Exception] of the source has nothing to catch. *)
Definition parse_row (prices : PriceTable) (row : bs4.node)
  : PriceTable * list log_record :=
  let cols := bs4.find_all "td" row in
  if (List.length cols <? 3)%nat then (prices, [])
  else
    match cols with
    | _ :: name_cell :: price_cell :: _ =>
        match bs4.find "a" name_cell with
        | Some company_link =>
            let company_name := strip (bs4.text company_link) in
            let price_text :=
              remove_char "," (strip (bs4.text price_cell)) in
            match float price_text with
            | Some price => (setitem company_name price prices, [])
            | None =>
                (prices,
                 [(DEBUG, Could_not_parse_price company_name price_text)])
            end
        | None => (prices, [])
        end
    | _ => (prices, [])
    end.

Definition parse_rows (rows : list bs4.node)
  : PriceTable * list log_record :=
  fold_left
    (fun acc row =>
       let '(prices, logs) := parse_row (fst acc) row in
       (prices, snd acc ++ logs))
    rows ([], []).

(** The table and the records logged while building it. *)
Definition _parse_table (html : bs4.html) : PriceTable * list log_record :=
  let soup := bs4.BeautifulSoup html in
  match bs4.find "table" soup with
  | None => ([], [(WARNING, Table_not_found)])
  | Some table =>
      let rows := tail (bs4.find_all "tr" table) in
      parse_rows rows
  end.

(** [self._parse_table(page_source)] inside a method. *)
Definition call_parse_table (html : bs4.html) : Method PriceTable :=
  let parsed := _parse_table html in
  log_all (snd parsed) ;; ret (fst parsed).

(** *** Pagination *)

Definition _has_next_page : Method bool :=
  try_except_all
    (driver_call Find_Next ;; ret true)
    (ret false).

Definition _click_next_page : Method unit :=
  try_except
    (driver_call Find_Next ;;
     driver_call Click ;;
     sleep 2)
    (fun e => log ERROR (Could_not_click_next_page e)).

(** *** [scrape_all_prices] *)

(** Lines 67-93, the [try] block once the driver is set up. *)
Definition scrape_pages : Method PriceTable :=
  log INFO (Loading SCREENER_URL) ;;
  driver_call (Get SCREENER_URL) ;;
  driver_call (Wait_until_table 15) ;;
  sleep 2 ;;
  let* page_source := driver_call Page_source in
  let* page1_data := call_parse_table page_source in
  assign (set_stock_data page1_data) ;;
  let* more := _has_next_page in
  when more
    (log INFO Found_second_page ;;
     _click_next_page ;;
     sleep 2 ;;
     let* page_source := driver_call Page_source in
     let* page2_data := call_parse_table page_source in
     assign (fun s => set_stock_data (update (stock_data s) page2_data) s)) ;;
  let* s := self in
  log INFO (Successfully_scraped (List.length (stock_data s))) ;;
  ret (stock_data s).

(** Lines 95-97, the [except Exception as e] clause. *)
Definition scrape_failed (e : exn) : Method PriceTable :=
  log ERROR (Error_scraping_prices e) ;;
  ret [].

(** Lines 99-102, the [finally] block. *)
Definition release_driver : Method unit :=
  let* s := self in
  match driver s with
  | Some _ =>
      driver_call Quit ;;
      log INFO Browser_closed
  | None => ret tt
  end.

Definition scrape_all_prices : Method PriceTable :=
  emit Enter_scrape_all_prices ;;
  try_finally
    (try_except (_setup_driver ;; scrape_pages) scrape_failed)
    release_driver.

(** *** Lookup *)

(** The loop of [get_price] over [stock_data.items()]. *)
Fixpoint first_match (company_lower : string) (items : list (string * pyfloat))
  : option pyfloat :=
  match items with
  | [] => None
  | (name, price) :: rest =>
      if contains company_lower (lower name) then Some price
      else first_match company_lower rest
  end.

Definition get_price (company_name : string) : Method (option pyfloat) :=
  let* s := self in
  when (is_empty (stock_data s)) (scrape_all_prices ;; ret tt) ;;
  let* s := self in
  if has_key company_name (stock_data s) then
    match getitem company_name (stock_data s) with
    | Some price => ret (Some price)
    | None => raise (Exception "KeyError")
    end
  else
    let company_lower := lower company_name in
    ret (first_match company_lower (stock_data s)).

(** *** [InteractiveStockFetcher] *)

Record InteractiveStockFetcher : Type := Fetcher {
  scraper : ScreenerPriceScraper;
  prices_loaded : bool
}.

(** [__init__] *)
Definition init_fetcher : InteractiveStockFetcher :=
  {| scraper := init true; prices_loaded := false |}.

Definition FMethod (A : Type) : Type :=
  M (InteractiveStockFetcher * world) event A.

(** A method of [self.scraper] called from the fetcher. *)
Definition on_scraper {A} (m : Method A) : FMethod A :=
  zoom (fun st => (scraper (fst st), snd st))
       (fun sub st =>
          ({| scraper := fst sub; prices_loaded := prices_loaded (fst st) |},
           snd sub))
       m.

Definition load_prices : FMethod unit :=
  let* f := gets fst in
  when (negb (prices_loaded f))
    (emit Print_loading ;;
     on_scraper scrape_all_prices ;;
     modify (fun st =>
               ({| scraper := scraper (fst st); prices_loaded := true |},
                snd st)) ;;
     let* f := gets fst in
     emit (Print_loaded (List.length (stock_data (scraper f))))).

(** The loop of [search_stock]. *)
Definition matches (query_lower : string) (items : list (string * pyfloat))
  : list (string * pyfloat) :=
  List.filter (fun item => contains query_lower (lower (fst item))) items.

Definition search_stock (query : string) : FMethod (list (string * pyfloat)) :=
  let* f := gets fst in
  when (negb (prices_loaded f)) load_prices ;;
  let query_lower := lower query in
  let* f := gets fst in
  ret (matches query_lower (stock_data (scraper f))).

End Methods.

End stock_price.

(* ================================================================== *)
(** ** main.py *)
(* ================================================================== *)

Module main.
Import Py Eff.

(** The two fields of the quote provider [get_price] reads, per symbol:
    [yf.Ticker(t).fast_info.get('lastPrice')], a number or [None], and the
    [Close] column of [yf.Ticker(t).history(period='1d')], oldest first
    (the frame is [.empty] when the list is).  Either call may raise. *)
Record provider : Type := Provider {
  fast_info_lastPrice : string -> result (option pyfloat);
  history_1d_Close : string -> result (list pyfloat)
}.

Inductive message : Type :=
| Fetching_price (ticker : string)
| Could_not_fetch_price (ticker : string)
| Successfully_fetched (ticker : string) (price : pyfloat)
| Error_fetching_price (ticker : string) (e : exn).

Definition log_record : Type := level * message.

(** The class keeps no state; what a method does outside is logging. *)
Definition Method (A : Type) : Type := M unit log_record A.

Definition log (l : level) (m : message) : Method unit := emit (l, m).

(** A call into the provider. *)
Definition call {A} (r : result A) : Method A :=
  match r with
  | Ret a => ret a
  | Raise e => raise e
  end.

(** Lines 40-41: [if not ticker.endswith('.NS'): ticker = f"{ticker}.NS"] *)
Definition with_suffix (ticker : string) : string :=
  if negb (endswith ticker ".NS") then ticker +:+ ".NS" else ticker.

(** [price is None or price == 0] *)
Definition none_or_zero (price : option pyfloat) : bool :=
  match price with
  | None => true
  | Some p => eq_zero p
  end.

(** [hist['Close'].iloc[-1]] *)
Definition iloc_last (closes : list pyfloat) : option pyfloat := last closes.

(** The suffix is added inside the [try] in the source; it cannot raise, and
    the handler logs the suffixed symbol. *)
Definition get_price (yf : provider) (ticker : string)
  : Method (option pyfloat) :=
  let ticker := with_suffix ticker in
  try_except
    (log INFO (Fetching_price ticker) ;;
     let* price := call (fast_info_lastPrice yf ticker) in
     let* price :=
       if none_or_zero price then
         let* hist := call (history_1d_Close yf ticker) in
         match iloc_last hist with
         | Some close => ret (Some close)
         | None => ret price
         end
       else ret price in
     match price with
     | Some p =>
         if eq_zero p then
           log ERROR (Could_not_fetch_price ticker) ;; ret None
         else
           log INFO (Successfully_fetched ticker p) ;; ret (Some p)
     | None =>
         log ERROR (Could_not_fetch_price ticker) ;; ret None
     end)
    (fun e =>
       log ERROR (Error_fetching_price ticker e) ;;
       ret None).

(** [ticker.replace('.NS', '')] *)
Definition clean (ticker : string) : string := remove_all ".NS" ticker.

(** The loop of [get_multiple_prices] over the tickers still to fetch,
    with the dictionary built so far. *)
Fixpoint fetch_each (yf : provider) (tickers : list string)
    (prices : dict pyfloat) : Method (dict pyfloat) :=
  match tickers with
  | [] => ret prices
  | ticker :: rest =>
      let* price := get_price yf ticker in
      match price with
      | Some p => fetch_each yf rest (setitem (clean ticker) p prices)
      | None => fetch_each yf rest prices
      end
  end.

Definition get_multiple_prices (yf : provider) (tickers : list string)
  : Method (dict pyfloat) :=
  fetch_each yf tickers [].

(** The values [get_stock_info] puts in its dictionary. *)
Inductive pyvalue : Type :=
| VNone
| VFloat (x : pyfloat)
| VStr (s : string).

(** [yf.Ticker(t).fast_info] as a mapping: per symbol and key, the value
    stored under the key, [None] when the key is absent; a lookup may
    raise. *)
Definition fast_info : Type := string -> string -> result (option pyvalue).

(** [info.get(key)] and [info.get(key, default)] *)
Definition info_get (info : string -> result (option pyvalue)) (key : string)
    (default : pyvalue) : result pyvalue :=
  match info key with
  | Ret (Some v) => Ret v
  | Ret None => Ret default
  | Raise e => Raise e
  end.

Inductive info_message : Type :=
| Error_fetching_info (ticker : string) (e : exn).

Definition InfoMethod (A : Type) : Type := M unit (level * info_message) A.

(** A call into the provider from [get_stock_info]. *)
Definition info_call {A} (r : result A) : InfoMethod A :=
  match r with
  | Ret a => ret a
  | Raise e => raise e
  end.

Definition get_stock_info (fi : fast_info) (ticker : string)
  : InfoMethod (dict pyvalue) :=
  let ticker := with_suffix ticker in
  try_except
    (let info := fi ticker in
     let* current_price := info_call (info_get info "lastPrice" VNone) in
     let* previous_close := info_call (info_get info "previousClose" VNone) in
     let* open := info_call (info_get info "open" VNone) in
     let* day_high := info_call (info_get info "dayHigh" VNone) in
     let* day_low := info_call (info_get info "dayLow" VNone) in
     let* currency := info_call (info_get info "currency" (VStr "INR")) in
     ret [("ticker", VStr (clean ticker));
          ("current_price", current_price);
          ("previous_close", previous_close);
          ("open", open);
          ("day_high", day_high);
          ("day_low", day_low);
          ("currency", currency)])
    (fun e =>
       emit (ERROR, Error_fetching_info ticker e) ;;
       ret []).

End main.

(* ================================================================== *)
(** ** Vocabulary of the properties *)
(* ================================================================== *)

Section Vocabulary.
Import Py stock_price.
Context {PY : builtins}.

(** The text of a price cell as handed to [float]: stripped, commas
    removed. *)
Definition price_text (cell : bs4.node) : string :=
  remove_char "," (strip (bs4.text cell)).

(** A row that yields an entry: at least three cells, a link in the
    second one whose stripped text is [name], and a third one whose text
    [float] parses to [price]. *)
Inductive valid_row (row : bs4.node) (name : string) (price : pyfloat) : Prop :=
| Valid_row (cols : list bs4.node) (name_cell price_cell link : bs4.node) :
    bs4.find_all "td" row = cols ->
    3 <= List.length cols ->
    cols !! 1 = Some name_cell ->
    cols !! 2 = Some price_cell ->
    bs4.find "a" name_cell = Some link ->
    strip (bs4.text link) = name ->
    float (price_text price_cell) = Some price ->
    valid_row row name price.

(** A row with a third cell whose text [float] rejects. *)
Definition unparseable_price (row : bs4.node) : Prop :=
  exists price_cell,
    bs4.find_all "td" row !! 2 = Some price_cell
    /\ float (price_text price_cell) = None.

(** The table built by the loop, without the log. *)
Definition table_after (prices : PriceTable) (rows : list bs4.node)
  : PriceTable :=
  fold_left (fun acc row => fst (parse_row acc row)) rows prices.

(** How many events of a kind a run caused. *)
Definition count {Ev} (P : Ev -> bool) (evs : list Ev) : nat :=
  List.length (List.filter P evs).

Definition is_scrape (ev : event) : bool :=
  match ev with Enter_scrape_all_prices => true | _ => false end.
Definition is_new_session (ev : event) : bool :=
  match ev with New_session _ _ => true | _ => false end.
Definition is_page_read (ev : event) : bool :=
  match ev with Call _ Page_source => true | _ => false end.
Definition is_click (ev : event) : bool :=
  match ev with Call _ Click => true | _ => false end.

(** Whatever the store, the computation causes at most [n] events of
    the kind [P]. *)
Definition at_most {St Ev A} (P : Ev -> bool) (n : nat) (m : Eff.M St Ev A)
  : Prop :=
  forall st, count P (Eff.events (m st)) <= n.

(** Whatever the store, the computation leaves [self.driver] alone. *)
Definition keeps_driver {A} (m : Method A) : Prop :=
  forall st, driver (fst (Eff.store (m st))) = driver (fst st).

(** The answer is a normal return. *)
Definition returns (r : reply) : bool :=
  match r with Returns _ => true | Raises _ => false end.

(** What [get_price] answers from a table: the price under the exact
    key, else the first match of the lowercased query. *)
Definition resolve (company_name : string) (table : PriceTable)
  : option pyfloat :=
  if has_key company_name table then getitem company_name table
  else first_match (lower company_name) table.

(** Lookups made one after the other on the same scraper. *)
Fixpoint get_prices (queries : list string) : Method (list (option pyfloat)) :=
  match queries with
  | [] => Eff.ret []
  | q :: qs =>
      let* p := get_price q in
      let* ps := get_prices qs in
      Eff.ret (p :: ps)
  end.

(** Searches made one after the other on the same fetcher. *)
Fixpoint search_stocks (queries : list string)
  : FMethod (list (list (string * pyfloat))) :=
  match queries with
  | [] => Eff.ret []
  | q :: qs =>
      let* r := search_stock q in
      let* rs := search_stocks qs in
      Eff.ret (r :: rs)
  end.

End Vocabulary.

(** *** Sample data *)

(** A provider with no fast price for any symbol and one daily close of
    99.5. *)
Definition close_only_provider : main.provider :=
  {| main.fast_info_lastPrice := fun _ => Py.Ret None;
     main.history_1d_Close := fun _ => Py.Ret [Py.Dec false 995 (-1)] |}.

(** A table in which the longer name comes first. *)
Definition tcs_table : stock_price.PriceTable :=
  [("TCS Digital", Py.Dec false 50 0); ("TCS", Py.Dec false 3900 0)].


Definition td (s : string) : bs4.node := bs4.Tag "td" [bs4.NavigableString s].
Definition th (s : string) : bs4.node := bs4.Tag "th" [bs4.NavigableString s].
Definition td_link (s : string) : bs4.node :=
  bs4.Tag "td" [bs4.Tag "a" [bs4.NavigableString s]].
Definition tr (cells : list bs4.node) : bs4.node := bs4.Tag "tr" cells.
Definition page (body : list bs4.node) : bs4.html :=
  [bs4.Tag "html" [bs4.Tag "body" body]].

Definition header_row : bs4.node := tr [th "S.No."; th "Name"; th "CMP"].
Definition reliance_row : bs4.node :=
  tr [td "1"; td_link "Reliance Industries"; td "1,531.75"].
Definition hdfc_row : bs4.node := tr [td "2"; td_link "HDFC Bank"; td "1,004.00"].
Definition xyz_row : bs4.node := tr [td "3"; td_link "XYZ Corp"; td "n/a"].

(** One header row and three data rows, the last with no price. *)
Definition sample_table : bs4.node :=
  bs4.Tag "table" [header_row; reliance_row; hdfc_row; xyz_row].
Definition sample_page : bs4.html := page [sample_table].

(** The same rows, the one with no price between the other two. *)
Definition gap_table : bs4.node :=
  bs4.Tag "table" [header_row; reliance_row; xyz_row; hdfc_row].
Definition gap_page : bs4.html := page [gap_table].

(** A page with no table at all. *)
Definition maintenance_page : bs4.html :=
  page [bs4.Tag "p" [bs4.NavigableString "Down for maintenance"]].

(** A page whose only data row spells its price [inf]. *)
Definition inf_page : bs4.html :=
  page [bs4.Tag "table" [header_row; tr [td "1"; td_link "Acme"; td "inf"]]].

(** A page whose only data row has a price beyond the range of a float. *)
Definition overflow_page : bs4.html :=
  page [bs4.Tag "table" [header_row; tr [td "1"; td_link "Acme"; td "1e400"]]].

(** A call that returns nothing of interest. *)
Definition ok : stock_price.reply := stock_price.Returns [].

(** The browser starts and loads the page, then the wait for the table
    times out. *)
Definition timeout_script : list stock_price.reply :=
  [ok; ok; stock_price.Raises (Py.Exception "TimeoutException"); ok].

(** One data row each: [A] at 10.0 and [B] at 20.0. *)
Definition page_A : bs4.html :=
  page [bs4.Tag "table" [header_row; tr [td "1"; td_link "A"; td "10.0"]]].
Definition page_B : bs4.html :=
  page [bs4.Tag "table" [header_row; tr [td "1"; td_link "B"; td "20.0"]]].

(** A browser that shows [page_A], has a [Next] link, and shows [page_B]
    after the click. *)
Definition two_page_script : list stock_price.reply :=
  [ok; ok; ok; stock_price.Returns page_A; ok; ok; ok;
   stock_price.Returns page_B; ok].

(** A browser that starts, loads the page and shows [page_A], and
    answers the first search for the [Next] link. *)
Definition next_found_script : list stock_price.reply :=
  [ok; ok; ok; stock_price.Returns page_A; ok].

(** A browser that shows [page_A] without a [Next] link and then fails
    to quit. *)
Definition quit_fails_script : list stock_price.reply :=
  [ok; ok; ok; stock_price.Returns page_A;
   stock_price.Raises (Py.Exception "NoSuchElementException");
   stock_price.Raises (Py.Exception "WebDriverException")].

(** A browser that works and shows a page without a table and without a
    [Next] link, twice in a row. *)
Definition no_table_script : list stock_price.reply :=
  [ok; ok; ok; stock_price.Returns maintenance_page;
   stock_price.Raises (Py.Exception "NoSuchElementException"); ok].

(* ================================================================== *)
(** ** Vocabulary of the further properties *)
(* ================================================================== *)

(** A symbol in which [.NS] occurs nowhere. *)
Definition bare (ticker : string) : Prop := Py.contains ".NS" ticker = false.

(** What [main.get_price] answers for a symbol, [None] also when it
    raises. *)
Definition quote (yf : main.provider) (ticker : string) : option Py.pyfloat :=
  match Eff.value (main.get_price yf ticker tt) with
  | Py.Ret price => price
  | Py.Raise _ => None
  end.

Definition is_quit (ev : stock_price.event) : bool :=
  match ev with stock_price.Call _ stock_price.Quit => true | _ => false end.

(** A provider with a fast price of 3900 for [TCS.NS], a zero fast price
    and a close of 1500.5 for [INFY.NS], and nothing for other symbols. *)
Definition sample_provider : main.provider :=
  {| main.fast_info_lastPrice := fun t =>
       if String.eqb t "TCS.NS" then Py.Ret (Some (Py.Dec false 3900 0))
       else if String.eqb t "INFY.NS" then Py.Ret (Some (Py.Dec false 0 0))
       else Py.Ret None;
     main.history_1d_Close := fun t =>
       if String.eqb t "INFY.NS"
       then Py.Ret [Py.Dec false 1490 0; Py.Dec false 15005 (-1)]
       else Py.Ret [] |}.

(** A provider whose historical query is interrupted. *)
Definition interrupted_provider : main.provider :=
  {| main.fast_info_lastPrice := fun _ => Py.Ret None;
     main.history_1d_Close := fun _ =>
       Py.Raise (Py.BaseException "KeyboardInterrupt") |}.

(** Fast info with a last price only. *)
Definition sample_fast_info : main.fast_info :=
  fun _ key =>
    if String.eqb key "lastPrice" then Py.Ret (Some (main.VFloat (Py.Dec false 3900 0)))
    else Py.Ret None.



(** A table in which the name [A] comes up twice. *)
Definition repeated_name_table : bs4.node :=
  bs4.Tag "table"
    [header_row;
     tr [td "1"; td_link "A"; td "10.0"];
     tr [td "2"; td_link "B"; td "20.0"];
     tr [td "3"; td_link " A "; td "30.0"]].

(** A table with a single row that would be a valid data row. *)
Definition headerless_page : bs4.html := page [bs4.Tag "table" [reliance_row]].

(** Whatever the store, every browser call the computation makes is on
    the session [self.driver] holds when it starts. *)
Definition calls_own {A} (m : stock_price.Method A) : Prop :=
  forall st sid op,
    In (stock_price.Call sid op) (Eff.events (m st)) ->
    stock_price.driver (fst st) = Some sid.

(** Lines 121-132 of [main.py]. *)
Definition NIFTY50_TICKERS : list string :=
  ["RELIANCE"; "TCS"; "HDFCBANK"; "INFY"; "ICICIBANK";
   "HINDUNILVR"; "ITC"; "SBIN"; "BHARTIARTL"; "KOTAKBANK";
   "LT"; "AXISBANK"; "ASIANPAINT"; "MARUTI"; "TITAN";
   "BAJFINANCE"; "HCLTECH"; "SUNPHARMA"; "ULTRACEMCO"; "ONGC";
   "NESTLEIND"; "WIPRO"; "NTPC"; "TATAMOTORS"; "POWERGRID";
   "M&M"; "ADANIENT"; "COALINDIA"; "JSWSTEEL"; "TATASTEEL";
   "INDUSINDBK"; "BAJAJFINSV"; "HINDALCO"; "GRASIM"; "CIPLA";
   "TECHM"; "DRREDDY"; "EICHERMOT"; "BPCL"; "APOLLOHOSP";
   "DIVISLAB"; "TATACONSUM"; "SBILIFE"; "HDFCLIFE"; "HEROMOTOCO";
   "BRITANNIA"; "ADANIPORTS"; "SHRIRAMFIN"; "BAJAJ-AUTO"; "LTIM"].

(* ================================================================== *)
(** ** Facts about the Python fragment *)
(* ================================================================== *)

Section StrFacts.
Import Py.

Lemma startswith_empty (s : string) : startswith s "" = true.
Proof. destruct s; reflexivity. Qed.

(** The empty string is found in every string. *)
Lemma contains_empty (s : string) : contains "" s = true.
Proof. destruct s; reflexivity. Qed.

Lemma endswith_refl (s : string) : endswith s s = true.
Proof. destruct s; simpl; [reflexivity|]. now rewrite Ascii.eqb_refl, String.eqb_refl. Qed.

Lemma endswith_app (p suffix : string) : endswith (p +:+ suffix) suffix = true.
Proof.
  induction p as [|c p IH]; simpl.
  - apply endswith_refl.
  - rewrite IH. apply orb_true_r.
Qed.

(** [endswith] is the usual notion: the string is something followed by
    the suffix. *)
Lemma endswith_spec (s suffix : string) :
  endswith s suffix = true <-> exists p, s = p +:+ suffix.
Proof.
  split.
  - induction s as [|c s IH]; cbn [endswith]; intros H.
    + rewrite orb_false_r in H. apply String.eqb_eq in H. now exists "".
    + apply orb_true_iff in H as [H|H].
      * apply String.eqb_eq in H. exists "". now rewrite <- H.
      * destruct (IH H) as [p ->]. now exists (String c p).
  - intros [p ->]. apply endswith_app.
Qed.

Lemma startswith_spec (s p : string) :
  startswith s p = true <-> exists rest, s = p +:+ rest.
Proof.
  revert s. induction p as [|a p IH]; intros s.
  - split; [intros _; now exists s|intros _; apply startswith_empty].
  - destruct s as [|b s]; simpl; [split; [discriminate|now intros [rest [=]]]|].
    rewrite andb_true_iff, IH. split.
    + intros [Hab [rest ->]]. apply Ascii.eqb_eq in Hab as ->. now exists rest.
    + intros [rest [= -> ->]]. split; [apply Ascii.eqb_refl|now exists rest].
Qed.

(** [contains] is the usual notion: the string is something, then the
    part looked for, then something. *)
Lemma contains_spec (sub s : string) :
  contains sub s = true <-> exists pre post, s = pre +:+ sub +:+ post.
Proof.
  induction s as [|c s IH]; cbn [contains]; rewrite orb_true_iff.
  - split.
    + intros [H|H]; [|discriminate].
      apply startswith_spec in H as [rest H]. now exists "", rest.
    + intros (pre & post & H). left. apply startswith_spec.
      destruct pre; [now exists post|discriminate].
  - rewrite IH. split.
    + intros [H|(pre & post & ->)].
      * apply startswith_spec in H as [rest H]. now exists "", rest.
      * now exists (String c pre), post.
    + intros (pre & post & H). destruct pre as [|a pre].
      * left. apply startswith_spec. now exists post.
      * right. injection H as -> ->. now exists pre, post.
Qed.

End StrFacts.

(* ================================================================== *)
(** ** main.py: symbol suffix and quote fallback *)
(* ================================================================== *)

(** C9. Normalizing a symbol twice gives the same string as normalizing
    it once: the suffix [.NS] is appended at most once.  Hence
    [get_price] queries the provider for the same symbol whether it is
    handed the bare ticker or the suffixed one. *)
Theorem with_suffix_idempotent (s : string) :
  main.with_suffix (main.with_suffix s) = main.with_suffix s
  /\ Py.endswith (main.with_suffix s) ".NS" = true
  /\ (forall yf,
        main.get_price yf (main.with_suffix s) tt = main.get_price yf s tt).
Proof.
  assert (E : Py.endswith (main.with_suffix s) ".NS" = true).
  { unfold main.with_suffix.
    destruct (Py.endswith s ".NS") eqn:Hs; simpl; [exact Hs|].
    apply endswith_app. }
  assert (I : main.with_suffix (main.with_suffix s) = main.with_suffix s).
  { unfold main.with_suffix at 1. now rewrite E. }
  repeat split; [exact I|exact E|].
  intros yf. unfold main.get_price. now rewrite I.
Qed.

(** C5. [get_price] answers with the provider's fast last price when that
    is present and not zero; when it is absent or equal to zero, with the
    latest one-day close if there is one and it is not zero; and when
    neither gives a price it returns [None] instead of raising.  An
    [Exception] raised by the provider also ends in [None]. *)
Theorem get_price_fallback (yf : main.provider) (symbol : string) :
  let t := main.with_suffix symbol in
  let answer := Eff.value (main.get_price yf symbol tt) in
  (forall p,
      main.fast_info_lastPrice yf t = Py.Ret (Some p) ->
      Py.eq_zero p = false ->
      answer = Py.Ret (Some p))
  /\ (forall fast closes close,
      main.fast_info_lastPrice yf t = Py.Ret fast ->
      fast = None \/ (exists p, fast = Some p /\ Py.eq_zero p = true) ->
      main.history_1d_Close yf t = Py.Ret closes ->
      last closes = Some close ->
      Py.eq_zero close = false ->
      answer = Py.Ret (Some close))
  /\ (forall fast closes,
      main.fast_info_lastPrice yf t = Py.Ret fast ->
      fast = None \/ (exists p, fast = Some p /\ Py.eq_zero p = true) ->
      main.history_1d_Close yf t = Py.Ret closes ->
      closes = [] \/ (exists close, last closes = Some close /\ Py.eq_zero close = true) ->
      answer = Py.Ret None)
  /\ (forall e,
      Py.is_Exception e = true ->
      main.fast_info_lastPrice yf t = Py.Raise e
      \/ (exists fast,
             main.fast_info_lastPrice yf t = Py.Ret fast
             /\ (fast = None \/ (exists p, fast = Some p /\ Py.eq_zero p = true))
             /\ main.history_1d_Close yf t = Py.Raise e) ->
      answer = Py.Ret None).
Proof.
  intros t answer. subst answer.
  assert (Hzero : forall fast,
             fast = None \/ (exists p, fast = Some p /\ Py.eq_zero p = true) ->
             main.none_or_zero fast = true).
  { intros fast [->|(p & -> & Hp)]; [reflexivity|exact Hp]. }
  unfold main.get_price, Eff.try_except, Eff.bind, main.log, Eff.emit, main.call.
  fold t.
  repeat split.
  - intros p Hf Hz. rewrite Hf. cbn. rewrite Hz. cbn. now rewrite Hz.
  - intros fast closes close Hf Hn%Hzero Hh Hl Hz.
    rewrite Hf. cbn. rewrite Hn, Hh. cbn.
    unfold main.iloc_last. rewrite Hl. cbn. now rewrite Hz.
  - intros fast closes Hf Hn%Hzero Hh Hc.
    rewrite Hf. cbn. rewrite Hn, Hh. cbn. unfold main.iloc_last.
    destruct Hc as [->|(close & Hl & Hz)].
    + cbn. destruct fast as [p|]; cbn; [|reflexivity].
      cbn in Hn. now rewrite Hn.
    + rewrite Hl. cbn. now rewrite Hz.
  - intros e He [Hf|(fast & Hf & Hn%Hzero & Hh)].
    + rewrite Hf. cbn. now rewrite He.
    + rewrite Hf. cbn. rewrite Hn, Hh. cbn. now rewrite He.
Qed.

(** The fast price absent, and the fast price equal to zero: both fall
    back on the latest close. *)
Lemma get_price_fallback_witness :
  Eff.value (main.get_price close_only_provider "RELIANCE" tt)
  = Py.Ret (Some (Py.Dec false 995 (-1)))
  /\ Eff.value (main.get_price sample_provider "INFY" tt)
     = Py.Ret (Some (Py.Dec false 15005 (-1))).
Proof.
  split.
  - apply (proj1 (proj2 (get_price_fallback close_only_provider "RELIANCE"))
             None [Py.Dec false 995 (-1)] (Py.Dec false 995 (-1)));
      [reflexivity | left; reflexivity | reflexivity | reflexivity | reflexivity].
  - apply (proj1 (proj2 (get_price_fallback sample_provider "INFY"))
             (Some (Py.Dec false 0 0))
             [Py.Dec false 1490 0; Py.Dec false 15005 (-1)]
             (Py.Dec false 15005 (-1)));
      [reflexivity
      | right; exists (Py.Dec false 0 0); split; reflexivity
      | reflexivity | reflexivity | reflexivity].
Defined.

(* ================================================================== *)
(** ** Dictionaries *)
(* ================================================================== *)

Section DictFacts.
Import Py.
Context {V : Type}.
Implicit Types (d : dict V) (k : string) (v : V).

Lemma has_key_In k d : has_key k d = true <-> In k (keys d).
Proof.
  unfold has_key, keys. rewrite existsb_exists, in_map_iff. split.
  - intros (kv & Hin & He). apply String.eqb_eq in He. eauto.
  - intros (kv & He & Hin). exists kv. split; [exact Hin|].
    now apply String.eqb_eq.
Qed.

Lemma has_key_false k d : has_key k d = false <-> ~ In k (keys d).
Proof.
  rewrite <- has_key_In. destruct (has_key k d); split; congruence.
Qed.

(** With unique keys, an entry of the table is what indexing returns. *)
Lemma getitem_In k v d :
  List.NoDup (keys d) -> In (k, v) d -> getitem k d = Some v.
Proof.
  induction d as [|[k' v'] d IH]; simpl; intros Hnd Hin; [easy|].
  inversion Hnd as [|? ? Hnot Hnd']; subst.
  destruct Hin as [E|Hin].
  - inversion E; subst. now rewrite String.eqb_refl.
  - destruct (String.eqb_spec k' k) as [->|_].
    + exfalso. apply Hnot. unfold keys. apply in_map_iff. now exists (k, v).
    + now apply IH.
Qed.

Lemma getitem_Some_In k v d : getitem k d = Some v -> In (k, v) d.
Proof.
  induction d as [|[k' v'] d IH]; simpl; [discriminate|].
  destruct (String.eqb_spec k' k) as [->|_].
  - intros [= ->]. now left.
  - intros H. right. now apply IH.
Qed.

Lemma keys_setitem_fresh k v d :
  ~ In k (keys d) -> setitem k v d = d ++ [(k, v)].
Proof.
  induction d as [|[k' v'] d IH]; simpl; intros Hk; [reflexivity|].
  destruct (String.eqb_spec k' k) as [->|_]; [tauto|].
  rewrite IH; [reflexivity|tauto].
Qed.

Lemma keys_setitem_present k v d :
  In k (keys d) -> keys (setitem k v d) = keys d.
Proof.
  induction d as [|[k' v'] d IH]; simpl; intros Hk; [easy|].
  destruct (String.eqb_spec k' k) as [->|Hne]; [reflexivity|].
  simpl. f_equal. apply IH. destruct Hk; [congruence|assumption].
Qed.

(** Assignment keeps the keys unique. *)
Lemma NoDup_setitem k v d :
  List.NoDup (keys d) -> List.NoDup (keys (setitem k v d)).
Proof.
  intros Hnd. destruct (in_dec string_dec k (keys d)) as [Hin|Hnot].
  - now rewrite keys_setitem_present.
  - rewrite keys_setitem_fresh by assumption.
    unfold keys in *. rewrite map_app. simpl.
    apply List.NoDup_app; [assumption|repeat constructor; simpl; tauto|].
    intros a Ha [<-|[]]. contradiction.
Qed.

(** Every entry after an assignment is the assigned one or an old one. *)
Lemma In_setitem k v k0 v0 d :
  In (k0, v0) (setitem k v d) -> (k0 = k /\ v0 = v) \/ In (k0, v0) d.
Proof.
  induction d as [|[k' v'] d IH]; simpl.
  - intros [[= <- <-]|[]]. now left.
  - destruct (String.eqb_spec k' k) as [->|_]; simpl.
    + intros [[= <- <-]|H]; [now left|tauto].
    + intros [E|H]; [tauto|]. destruct (IH H); tauto.
Qed.

Lemma NoDup_update d other :
  List.NoDup (keys d) -> List.NoDup (keys (update d other)).
Proof.
  unfold update. revert d.
  induction other as [|[k v] other IH]; simpl; intros d Hnd; [exact Hnd|].
  apply IH. now apply NoDup_setitem.
Qed.

(** Merging a table whose keys are new and distinct appends it. *)
Lemma update_disjoint d other :
  List.NoDup (keys other) ->
  (forall k, In k (keys other) -> ~ In k (keys d)) ->
  update d other = d ++ other.
Proof.
  unfold update. revert d.
  induction other as [|[k v] other IH]; simpl; intros d Hnd Hdis.
  - now rewrite app_nil_r.
  - inversion Hnd as [|? ? Hk Hnd']; subst.
    rewrite keys_setitem_fresh by (apply Hdis; now left).
    rewrite IH; [now rewrite <- app_assoc|assumption|].
    intros k0 Hk0. unfold keys. rewrite map_app, in_app_iff. simpl.
    intros [H|[<-|[]]]; [|contradiction].
    apply (Hdis k0); [now right|exact H].
Qed.

End DictFacts.

(* ================================================================== *)
(** ** stock_price.py: lookup and bulk search *)
(* ================================================================== *)

Section Lookup.
Import Py stock_price.
Context {PY : Py.builtins}.

Lemma first_match_app_skip q pre rest :
  (forall name price, In (name, price) pre -> contains q (lower name) = false) ->
  first_match q (pre ++ rest) = first_match q rest.
Proof.
  induction pre as [|[n p] pre IH]; simpl; intros H; [reflexivity|].
  rewrite (H n p) by now left. apply IH. intros; eapply H; right; eassumption.
Qed.

Lemma first_match_none q items :
  (forall name price, In (name, price) items -> contains q (lower name) = false) ->
  first_match q items = None.
Proof.
  intros H. rewrite <- (app_nil_r items). now rewrite first_match_app_skip.
Qed.

Lemma matches_all q items :
  (forall name price, In (name, price) items -> contains q (lower name) = true) ->
  matches q items = items.
Proof.
  unfold matches.
  induction items as [|[n p] items IH]; simpl; intros H; [reflexivity|].
  rewrite (H n p) by now left. f_equal. apply IH. intros; eapply H; right; eassumption.
Qed.

(** On a table that is not empty [get_price] does not touch the browser
    and resolves the query against the table as it stands. *)
Lemma get_price_loaded q s w :
  stock_data s <> [] ->
  get_price q (s, w) =
    (if has_key q (stock_data s)
     then match getitem q (stock_data s) with
          | Some price => Ret (Some price)
          | None => Raise (Exception "KeyError")
          end
     else Ret (first_match (lower q) (stock_data s)),
     (s, w), []).
Proof.
  intros Hne.
  assert (Hemp : is_empty (stock_data s) = false)
    by (destruct (stock_data s); [congruence|reflexivity]).
  unfold get_price, Eff.bind, self, Eff.gets, Eff.when. cbn.
  rewrite Hemp. cbn.
  destruct (has_key q (stock_data s)); [|reflexivity].
  now destruct (getitem q (stock_data s)).
Qed.

End Lookup.

(* ================================================================== *)
(** ** stock_price.py: the table extractor *)
(* ================================================================== *)

Section Extractor.
Import Py stock_price.
Context {PY : Py.builtins}.

Lemma parse_row_valid prices row name price :
  valid_row row name price ->
  parse_row prices row = (setitem name price prices, []).
Proof.
  intros [cols nc pc link Hc Hlen H1 H2 Ha Hn Hp].
  unfold parse_row. rewrite Hc.
  destruct cols as [|c0 [|c1 [|c2 cols]]]; simpl in Hlen; try lia.
  simpl in H1, H2. injection H1 as ->. injection H2 as ->.
  simpl. rewrite Ha. fold (price_text pc). now rewrite Hn, Hp.
Qed.

Lemma parse_row_unparseable prices row :
  unparseable_price row -> fst (parse_row prices row) = prices.
Proof.
  intros (pc & H2 & Hp). unfold parse_row.
  destruct (bs4.find_all "td" row) as [|c0 [|c1 [|c2 cols]]];
    try discriminate.
  simpl in H2. injection H2 as ->. simpl.
  destruct (bs4.find "a" c1); [|reflexivity].
  fold (price_text pc). now rewrite Hp.
Qed.

(** A row either leaves the table alone or is valid and assigns its
    entry. *)
Lemma parse_row_cases prices row :
  fst (parse_row prices row) = prices
  \/ exists name price,
       valid_row row name price
       /\ fst (parse_row prices row) = setitem name price prices.
Proof.
  unfold parse_row.
  destruct (bs4.find_all "td" row) as [|c0 [|c1 [|c2 cols]]] eqn:Hc;
    try (now left).
  simpl.
  destruct (bs4.find "a" c1) as [link|] eqn:Ha; [|now left].
  fold (price_text c2).
  destruct (float (price_text c2)) as [price|] eqn:Hp; [|now left].
  right. exists (strip (bs4.text link)), price. split; [|reflexivity].
  econstructor; try eassumption; try reflexivity. simpl. lia.
Qed.

Lemma parse_rows_fold rows acc :
  fst (fold_left
         (fun acc row =>
            let '(prices, logs) := parse_row (fst acc) row in
            (prices, snd acc ++ logs))
         rows acc)
  = table_after (fst acc) rows.
Proof.
  revert acc. induction rows as [|r rows IH]; intros acc; simpl; [reflexivity|].
  rewrite IH. destruct (parse_row (fst acc) r). reflexivity.
Qed.

Lemma parse_rows_table rows : fst (parse_rows rows) = table_after [] rows.
Proof. unfold parse_rows. now rewrite parse_rows_fold. Qed.

Lemma table_after_app prices rows1 rows2 :
  table_after prices (rows1 ++ rows2)
  = table_after (table_after prices rows1) rows2.
Proof. unfold table_after. apply fold_left_app. Qed.

(** Valid rows with names that are new and distinct are appended in
    order. *)
Lemma table_after_valid rows : forall entries prices,
  Forall2 (fun row e => valid_row row (fst e) (snd e)) rows entries ->
  List.NoDup (keys entries) ->
  (forall k, In k (keys entries) -> ~ In k (keys prices)) ->
  table_after prices rows = prices ++ entries.
Proof.
  induction rows as [|r rows IH]; intros entries prices HF Hnd Hdis.
  - inversion HF; subst. simpl. now rewrite app_nil_r.
  - inversion HF as [|? [n v] ? entries' Hv HF']; subst. simpl in *.
    rewrite (parse_row_valid _ _ _ _ Hv). simpl.
    inversion Hnd as [|? ? Hn Hnd']; subst.
    rewrite keys_setitem_fresh by (apply Hdis; now left).
    rewrite (IH entries'); [now rewrite <- app_assoc|assumption|assumption|].
    intros k Hk. unfold keys. rewrite map_app, in_app_iff. simpl.
    intros [H|[<-|[]]]; [|contradiction].
    apply (Hdis k); [now right|exact H].
Qed.

(** Every entry of the table comes from a valid row or was there
    before. *)
Lemma table_after_In rows : forall prices name price,
  In (name, price) (table_after prices rows) ->
  In (name, price) prices
  \/ exists row, In row rows /\ valid_row row name price.
Proof.
  induction rows as [|r rows IH]; intros prices name price; simpl; [tauto|].
  intros H. apply IH in H as [H|(row & Hin & Hv)]; [|right; eauto].
  destruct (parse_row_cases prices r) as [E|(n & v & Hv & E)];
    rewrite E in H; [now left|].
  apply In_setitem in H as [[-> ->]|H]; [right; eauto|now left].
Qed.

Lemma NoDup_table_after rows : forall prices,
  List.NoDup (keys prices) -> List.NoDup (keys (table_after prices rows)).
Proof.
  induction rows as [|r rows IH]; intros prices Hnd; simpl; [exact Hnd|].
  apply IH. destruct (parse_row_cases prices r) as [E|(n & v & _ & E)];
    rewrite E; [exact Hnd|now apply NoDup_setitem].
Qed.

(** A row whose price does not parse is skipped, and the rows after it
    are treated as if it were not there. *)
Lemma table_after_skips prices pre bad post :
  unparseable_price bad ->
  table_after prices (pre ++ bad :: post) = table_after prices (pre ++ post).
Proof.
  intros Hbad. rewrite !table_after_app. simpl.
  now rewrite (parse_row_unparseable _ _ Hbad).
Qed.

(** The extractor always returns a dictionary with unique keys. *)
Lemma NoDup_parse_table html : List.NoDup (keys (fst (_parse_table html))).
Proof.
  unfold _parse_table.
  destruct (bs4.find "table" (bs4.BeautifulSoup html)); simpl; [|constructor].
  rewrite parse_rows_table. apply NoDup_table_after. constructor.
Qed.

End Extractor.

Example parse_table_sample_page :
  fst (stock_price._parse_table sample_page)
  = [("Reliance Industries", Py.Dec false 153175 (-2));
     ("HDFC Bank", Py.Dec false 1004 0)].
Proof. reflexivity. Qed.

Example parse_table_sample_page_log :
  snd (stock_price._parse_table sample_page)
  = [(Py.DEBUG, stock_price.Could_not_parse_price "XYZ Corp" "n/a")].
Proof. reflexivity. Qed.

(** C1. Let the first table of a page have a header row followed by the
    rows [pre ++ bad :: post], where the third cell of [bad] does not
    parse as a number once stripped and cleared of commas, and every other
    row is valid, with names that are all different.  Then the extractor
    skips the header and [bad] and keeps going: the table holds exactly
    the entries of the other rows, one fewer than there are data rows. *)
Theorem parse_table_row_fault_isolation {PY : Py.builtins}
    (html : bs4.html) (table header : bs4.node)
    (pre : list bs4.node) (bad : bs4.node) (post : list bs4.node)
    (entries : list (string * Py.pyfloat)) :
  bs4.find "table" (bs4.BeautifulSoup html) = Some table ->
  bs4.find_all "tr" table = header :: pre ++ bad :: post ->
  unparseable_price bad ->
  Forall2 (fun row e => valid_row row (fst e) (snd e)) (pre ++ post) entries ->
  List.NoDup (Py.keys entries) ->
  fst (stock_price._parse_table html) = entries
  /\ List.length (fst (stock_price._parse_table html))
     = List.length (pre ++ bad :: post) - 1.
Proof.
  intros Ht Hrows Hbad Hvalid Hnd.
  assert (E : fst (stock_price._parse_table html) = entries).
  { unfold stock_price._parse_table. rewrite Ht, Hrows. simpl tail.
    rewrite parse_rows_table, table_after_skips by assumption.
    rewrite (table_after_valid _ entries []); auto. }
  split; [exact E|].
  rewrite E, <- (Forall2_length _ _ _ Hvalid).
  rewrite !length_app. simpl. lia.
Qed.

Lemma parse_table_row_fault_isolation_witness :
  fst (stock_price._parse_table gap_page)
  = [("Reliance Industries", Py.Dec false 153175 (-2));
     ("HDFC Bank", Py.Dec false 1004 0)]
  /\ List.length (fst (stock_price._parse_table gap_page)) = 3 - 1.
Proof.
  apply (parse_table_row_fault_isolation
           gap_page gap_table header_row
           [reliance_row] xyz_row [hdfc_row]).
  - reflexivity.
  - reflexivity.
  - exists (td "n/a"). split; reflexivity.
  - repeat constructor; econstructor; try reflexivity; simpl; lia.
  - repeat constructor; simpl; intuition discriminate.
Defined.

(** C6 as claimed fails: a price cell that spells [inf] is accepted by
    [float], and the stored value is not finite. *)
Lemma parse_table_stores_infinity :
  ~ (forall html name price,
        In (name, price) (fst (stock_price._parse_table html)) ->
        Py.isfinite price = true).
Proof.
  intros H.
  specialize (H inf_page "Acme" (Py.Inf false)).
  discriminate H. simpl. now left.
Qed.

(** A decimal too large for a float is not rejected either; it is stored
    as an infinity. *)
Example parse_table_overflow :
  fst (stock_price._parse_table overflow_page) = [("Acme", Py.Inf false)].
Proof. vm_compute. reflexivity. Qed.

(** C6, amended. Every value stored in the table returned by
    [_parse_table] is what [float] returned for the price cell of some
    data row of the first table, a row with at least three cells and a
    link under whose text the value is stored.  A row whose price [float]
    rejects therefore adds nothing, and no absent value is stored.  The
    value is whatever [float] returns and need not be finite. *)
Theorem parse_table_values_parsed {PY : Py.builtins}
    (html : bs4.html) (name : string)
    (price : Py.pyfloat) :
  In (name, price) (fst (stock_price._parse_table html)) ->
  exists table row,
    bs4.find "table" (bs4.BeautifulSoup html) = Some table
    /\ In row (tail (bs4.find_all "tr" table))
    /\ valid_row row name price.
Proof.
  unfold stock_price._parse_table.
  destruct (bs4.find "table" (bs4.BeautifulSoup html)) as [table|]; simpl; [|easy].
  rewrite parse_rows_table. intros H.
  apply table_after_In in H as [[]|(row & Hin & Hv)].
  exists table, row. auto.
Qed.

Lemma parse_table_values_parsed_witness :
  exists table row,
    bs4.find "table" (bs4.BeautifulSoup sample_page) = Some table
    /\ In row (tail (bs4.find_all "tr" table))
    /\ valid_row row "HDFC Bank" (Py.Dec false 1004 0).
Proof.
  apply (parse_table_values_parsed sample_page "HDFC Bank" (Py.Dec false 1004 0)).
  simpl. right. left. reflexivity.
Defined.

(** C8. A page with no [table] element anywhere makes [_parse_table]
    return the empty table and log one warning; called from a method it
    returns normally, nothing is raised. *)
Theorem parse_table_missing_table {PY : Py.builtins} (html : bs4.html) :
  Forall (fun n => bs4.is_tag "table" n = false)
         (bs4.descendants (bs4.BeautifulSoup html)) ->
  stock_price._parse_table html
  = ([], [(Py.WARNING, stock_price.Table_not_found)])
  /\ (forall s w,
        stock_price.call_parse_table html (s, w)
        = (Py.Ret [], (s, w),
           [stock_price.Log (Py.WARNING, stock_price.Table_not_found)])).
Proof.
  intros Hno.
  assert (E : stock_price._parse_table html
              = ([], [(Py.WARNING, stock_price.Table_not_found)])).
  { unfold stock_price._parse_table, bs4.find, bs4.find_all.
    induction Hno as [|n l Hn _ IH]; simpl; [reflexivity|].
    rewrite Hn. exact IH. }
  split; [exact E|].
  intros s w. unfold stock_price.call_parse_table. rewrite E. reflexivity.
Qed.

Lemma parse_table_missing_table_witness :
  stock_price._parse_table maintenance_page
  = ([], [(Py.WARNING, stock_price.Table_not_found)]).
Proof.
  apply (parse_table_missing_table maintenance_page).
  repeat constructor.
Defined.

(* ================================================================== *)
(** ** Rules for composed computations *)
(* ================================================================== *)

Section CountRules.
Import Py Eff.
Context {St Ev : Type} (P : Ev -> bool).

Lemma count_app (a b : list Ev) : count P (a ++ b) = count P a + count P b.
Proof. unfold count. now rewrite List.filter_app, length_app. Qed.

Lemma count_none (evs : list Ev) :
  (forall ev, In ev evs -> P ev = false) -> count P evs = 0.
Proof.
  unfold count. induction evs as [|ev evs IH]; simpl; intros H; [reflexivity|].
  rewrite (H ev) by now left. apply IH. intros; apply H; now right.
Qed.

Lemma count_zero_In (evs : list Ev) (ev : Ev) :
  count P evs = 0 -> In ev evs -> P ev = false.
Proof.
  unfold count. induction evs as [|ev' evs IH]; simpl; [easy|].
  destruct (P ev') eqn:E; simpl; [discriminate|].
  intros H [<-|Hin]; auto.
Qed.

Lemma events_after {A} evs (out : result A * St * list Ev) :
  events (after evs out) = evs ++ events out.
Proof. now destruct out as [[r st] evs']. Qed.

Lemma store_after {A} evs (out : result A * St * list Ev) :
  store (after evs out) = store out.
Proof. now destruct out as [[r st] evs']. Qed.

Lemma value_after {A} evs (out : result A * St * list Ev) :
  value (after evs out) = value out.
Proof. now destruct out as [[r st] evs']. Qed.

Lemma events_emit_bind {B} ev (k : M St Ev B) st :
  events ((emit ev ;; k) st) = ev :: events (k st).
Proof. unfold bind, emit. now rewrite events_after. Qed.

Lemma at_most_le {A} n n' (m : M St Ev A) :
  at_most P n m -> n <= n' -> at_most P n' m.
Proof. intros H Hle st. specialize (H st). lia. Qed.

Lemma at_most_ret {A} (a : A) : at_most P 0 (ret (St:=St) a).
Proof. intros st. apply Nat.le_refl. Qed.

Lemma at_most_raise {A} e : at_most P 0 (raise (St:=St) (A:=A) e).
Proof. intros st. apply Nat.le_refl. Qed.

Lemma at_most_gets {A} (f : St -> A) : at_most P 0 (gets f).
Proof. intros st. apply Nat.le_refl. Qed.

Lemma at_most_modify (f : St -> St) : at_most P 0 (modify f).
Proof. intros st. apply Nat.le_refl. Qed.

Lemma at_most_emit_other (ev : Ev) :
  P ev = false -> at_most P 0 (emit (St:=St) ev).
Proof. intros H st. unfold emit, events, count. simpl. now rewrite H. Qed.

Lemma at_most_emit (ev : Ev) : at_most P 1 (emit (St:=St) ev).
Proof. intros st. unfold emit, events, count. simpl. destruct (P ev); simpl; lia. Qed.

Lemma at_most_bind {A B} n1 n2 (m : M St Ev A) (k : A -> M St Ev B) :
  at_most P n1 m -> (forall a, at_most P n2 (k a)) ->
  at_most P (n1 + n2) (bind m k).
Proof.
  intros Hm Hk st. unfold bind. specialize (Hm st).
  destruct (m st) as [[[a|e] st'] evs]; unfold events in Hm; simpl in Hm;
    [|unfold events; simpl; lia].
  specialize (Hk a st'). rewrite events_after, count_app. lia.
Qed.

Lemma at_most_try_except {A} n1 n2 (body : M St Ev A) handler :
  at_most P n1 body -> (forall e, at_most P n2 (handler e)) ->
  at_most P (n1 + n2) (try_except body handler).
Proof.
  intros Hb Hh st. unfold try_except. specialize (Hb st).
  destruct (body st) as [[[a|e] st'] evs]; unfold events in Hb; simpl in Hb;
    [unfold events; simpl; lia|].
  destruct (is_Exception e); [|unfold events; simpl; lia].
  specialize (Hh e st'). rewrite events_after, count_app. lia.
Qed.

Lemma at_most_try_except_all {A} n1 n2 (body handler : M St Ev A) :
  at_most P n1 body -> at_most P n2 handler ->
  at_most P (n1 + n2) (try_except_all body handler).
Proof.
  intros Hb Hh st. unfold try_except_all. specialize (Hb st).
  destruct (body st) as [[[a|e] st'] evs]; unfold events in Hb; simpl in Hb;
    [unfold events; simpl; lia|].
  specialize (Hh st'). rewrite events_after, count_app. lia.
Qed.

Lemma at_most_try_finally {A} n1 n2 (body : M St Ev A) final :
  at_most P n1 body -> at_most P n2 final ->
  at_most P (n1 + n2) (try_finally body final).
Proof.
  intros Hb Hf st. unfold try_finally. specialize (Hb st).
  destruct (body st) as [[r st1] evs1].
  specialize (Hf st1).
  destruct (final st1) as [[[a|e] st'] evs];
    unfold events in *; simpl in *; rewrite count_app; lia.
Qed.

Lemma at_most_when n b (m : M St Ev unit) :
  at_most P n m -> at_most P n (when b m).
Proof. intros H. destruct b; simpl; [exact H|]. intros st. apply Nat.le_0_l. Qed.

Lemma at_most_zoom {Sub A} n (get : St -> Sub) set (m : M Sub Ev A) :
  at_most P n m -> at_most P n (zoom get set m).
Proof.
  intros H st. specialize (H (get st)). unfold zoom.
  now destruct (m (get st)) as [[r sub] evs].
Qed.

End CountRules.

Section ScraperBounds.
Import Py Eff stock_price.
Context {PY : Py.builtins}.
Variable P : event -> bool.
Hypothesis P_log : forall r, P (Log r) = false.
Hypothesis P_sleep : forall n, P (Sleep n) = false.

Lemma at_most_log {Self} l m : at_most P 0 (log (Self:=Self) l m).
Proof. apply at_most_emit_other, P_log. Qed.

Lemma at_most_sleep {Self} n : at_most P 0 (sleep (Self:=Self) n).
Proof. apply at_most_emit_other, P_sleep. Qed.

Lemma at_most_answer {Self} : at_most P 0 (answer (Self:=Self)).
Proof. intros st. unfold answer. destruct (take_reply (snd st)). apply Nat.le_refl. Qed.

Lemma count_logs rs : count P (map Log rs) = 0.
Proof.
  apply count_none. intros ev Hin.
  apply in_map_iff in Hin as (r & <- & _). apply P_log.
Qed.

Lemma at_most_log_all {Self} rs : at_most P 0 (log_all (Self:=Self) rs).
Proof. intros st. unfold log_all, events. simpl. now rewrite count_logs. Qed.

Lemma at_most_call_parse_table html : at_most P 0 (call_parse_table html).
Proof.
  unfold call_parse_table.
  apply (at_most_bind P 0 0); [apply at_most_log_all|intros _; apply at_most_ret].
Qed.

Lemma at_most_driver_call op : at_most P 1 (driver_call op).
Proof.
  unfold driver_call.
  apply (at_most_bind P 0 1); [apply at_most_gets|]. intros s.
  destruct (driver s); [|apply (at_most_le P 0); [apply at_most_raise|lia]].
  apply (at_most_bind P 1 0); [apply at_most_emit|]. intros _.
  apply (at_most_bind P 0 0); [apply at_most_answer|].
  intros [page|e]; [apply at_most_ret|apply at_most_raise].
Qed.

Lemma at_most_driver_call_other op :
  (forall sid, P (Call sid op) = false) -> at_most P 0 (driver_call op).
Proof.
  intros Hop. unfold driver_call.
  apply (at_most_bind P 0 0); [apply at_most_gets|]. intros s.
  destruct (driver s); [|apply at_most_raise].
  apply (at_most_bind P 0 0); [apply at_most_emit_other, Hop|]. intros _.
  apply (at_most_bind P 0 0); [apply at_most_answer|].
  intros [page|e]; [apply at_most_ret|apply at_most_raise].
Qed.

Lemma at_most_setup_driver :
  (forall o c, P (New_session o c) = false) -> at_most P 0 _setup_driver.
Proof.
  intros Hn. unfold _setup_driver, webdriver_Chrome.
  apply (at_most_bind P 0 0); [apply at_most_gets|]. intros s.
  apply (at_most_bind P 0 0).
  - apply (at_most_bind P 0 0); [apply at_most_answer|].
    intros [page|e].
    + apply (at_most_bind P 0 0); [apply at_most_gets|]. intros sid.
      apply (at_most_bind P 0 0); [apply at_most_modify|]. intros _.
      apply (at_most_bind P 0 0); [apply at_most_emit_other, Hn|].
      intros _. apply at_most_ret.
    + apply (at_most_bind P 0 0); [apply at_most_emit_other, Hn|].
      intros _. apply at_most_raise.
  - intros sid. apply (at_most_bind P 0 0); [apply at_most_modify|].
    intros _. apply at_most_log.
Qed.

End ScraperBounds.

Section ScraperBoundsMore.
Import Py Eff stock_price.
Context {PY : Py.builtins}.
Variable P : event -> bool.
Hypothesis P_log : forall r, P (Log r) = false.
Hypothesis P_quit : forall sid, P (Call sid Quit) = false.

Lemma at_most_release_driver : at_most P 0 release_driver.
Proof.
  unfold release_driver.
  apply (at_most_bind P 0 0); [apply at_most_gets|]. intros s.
  destruct (driver s); [|apply at_most_ret].
  apply (at_most_bind P 0 0);
    [apply at_most_driver_call_other, P_quit|intros _; now apply at_most_log].
Qed.

End ScraperBoundsMore.

(** Bounds the events of a composed computation by adding up the bounds
    of its parts. *)
Ltac bound :=
  lazymatch goal with
  | |- at_most _ _ (Eff.bind _ _) =>
      eapply at_most_bind; [bound | intros; bound]
  | |- at_most _ _ (Eff.ret _) => apply at_most_ret
  | |- at_most _ _ (Eff.raise _) => apply at_most_raise
  | |- at_most _ _ (Eff.gets _) => apply at_most_gets
  | |- at_most _ _ (Eff.modify _) => apply at_most_modify
  | |- at_most _ _ stock_price.self => apply at_most_gets
  | |- at_most _ _ (stock_price.assign _) => apply at_most_modify
  | |- at_most _ _ (Eff.when _ _) => eapply at_most_when; bound
  | |- at_most _ _ (Eff.try_except _ _) =>
      eapply at_most_try_except; [bound | intros; bound]
  | |- at_most _ _ (Eff.try_except_all _ _) =>
      eapply at_most_try_except_all; bound
  | |- at_most _ _ (Eff.try_finally _ _) =>
      eapply at_most_try_finally; bound
  | |- at_most _ _ (stock_price.on_scraper _) => eapply at_most_zoom; bound
  | |- at_most _ _ (stock_price.log _ _) =>
      apply at_most_log; intros; reflexivity
  | |- at_most _ _ (stock_price.sleep _) =>
      apply at_most_sleep; intros; reflexivity
  | |- at_most _ _ (stock_price.call_parse_table _) =>
      apply at_most_call_parse_table; intros; reflexivity
  | |- at_most _ _ (stock_price.driver_call _) =>
      first [ apply at_most_driver_call_other; intros; reflexivity
            | apply at_most_driver_call ]
  | |- at_most _ _ stock_price._setup_driver =>
      apply at_most_setup_driver; intros; reflexivity
  | |- at_most _ _ stock_price.release_driver =>
      apply at_most_release_driver; intros; reflexivity
  | |- at_most _ _ (Eff.emit _) =>
      first [ apply at_most_emit_other; reflexivity | apply at_most_emit ]
  | |- at_most _ _ stock_price._has_next_page =>
      unfold stock_price._has_next_page; bound
  | |- at_most _ _ stock_price._click_next_page =>
      unfold stock_price._click_next_page; bound
  | |- at_most _ _ stock_price.scrape_pages =>
      unfold stock_price.scrape_pages; bound
  | |- at_most _ _ (stock_price.scrape_failed _) =>
      unfold stock_price.scrape_failed; bound
  | |- at_most _ _ stock_price.scrape_all_prices =>
      unfold stock_price.scrape_all_prices; bound
  end.

Section ScrapeBounds.
Import Py Eff stock_price.
Context {PY : Py.builtins}.

(** A scrape reads the page source at most twice. *)
Lemma scrape_page_reads : at_most is_page_read 2 scrape_all_prices.
Proof. eapply at_most_le; [bound|simpl; lia]. Qed.

(** A scrape clicks at most once. *)
Lemma scrape_clicks : at_most is_click 1 scrape_all_prices.
Proof. eapply at_most_le; [bound|simpl; lia]. Qed.

(** Once the driver is set up, no other browser is started. *)
Lemma scrape_pages_no_new_session : at_most is_new_session 0 scrape_pages.
Proof. eapply at_most_le; [bound|simpl; lia]. Qed.

(** A scrape is entered once per call. *)
Lemma scrape_entered_once st :
  count is_scrape (events (scrape_all_prices st)) = 1.
Proof.
  unfold scrape_all_prices.
  set (rest := try_finally _ _).
  assert (H : at_most is_scrape 0 rest)
    by (subst rest; eapply at_most_le; [bound|simpl; lia]).
  clearbody rest. specialize (H st).
  rewrite events_emit_bind. unfold count in *. simpl. lia.
Qed.

End ScrapeBounds.

Section KeepRules.
Import Py Eff stock_price.
Context {PY : Py.builtins}.

Lemma keeps_ret {A} (a : A) : keeps_driver (ret a).
Proof. intros st. reflexivity. Qed.

Lemma keeps_raise {A} e : keeps_driver (raise (A:=A) e).
Proof. intros st. reflexivity. Qed.

Lemma keeps_gets {A} (f : _ -> A) : keeps_driver (gets f).
Proof. intros st. reflexivity. Qed.

Lemma keeps_emit ev : keeps_driver (emit ev).
Proof. intros st. reflexivity. Qed.

Lemma keeps_answer : keeps_driver answer.
Proof. intros st. unfold answer. now destruct (take_reply (snd st)). Qed.

Lemma keeps_assign f :
  (forall s, driver (f s) = driver s) -> keeps_driver (assign f).
Proof. intros H st. apply H. Qed.

Lemma keeps_bind {A B} (m : Method A) (k : A -> Method B) :
  keeps_driver m -> (forall a, keeps_driver (k a)) -> keeps_driver (bind m k).
Proof.
  intros Hm Hk st. unfold bind. specialize (Hm st).
  destruct (m st) as [[[a|e] st'] evs]; unfold store in Hm; simpl in Hm;
    [|exact Hm].
  rewrite store_after, <- Hm. apply (Hk a st').
Qed.

Lemma keeps_try_except {A} (body : Method A) handler :
  keeps_driver body -> (forall e, keeps_driver (handler e)) ->
  keeps_driver (try_except body handler).
Proof.
  intros Hb Hh st. unfold try_except. specialize (Hb st).
  destruct (body st) as [[[a|e] st'] evs]; unfold store in Hb; simpl in Hb;
    [exact Hb|].
  destruct (is_Exception e); [|exact Hb].
  rewrite store_after, <- Hb. apply (Hh e st').
Qed.

Lemma keeps_try_except_all {A} (body handler : Method A) :
  keeps_driver body -> keeps_driver handler ->
  keeps_driver (try_except_all body handler).
Proof.
  intros Hb Hh st. unfold try_except_all. specialize (Hb st).
  destruct (body st) as [[[a|e] st'] evs]; unfold store in Hb; simpl in Hb;
    [exact Hb|].
  rewrite store_after, <- Hb. apply (Hh st').
Qed.

Lemma keeps_when b (m : Method unit) : keeps_driver m -> keeps_driver (when b m).
Proof. intros H. destruct b; [exact H|apply keeps_ret]. Qed.

Lemma keeps_log_all rs : keeps_driver (log_all rs).
Proof. intros st. reflexivity. Qed.

Lemma keeps_call_parse_table html : keeps_driver (call_parse_table html).
Proof.
  unfold call_parse_table.
  apply keeps_bind; [apply keeps_log_all|intros _; apply keeps_ret].
Qed.

Lemma keeps_driver_call op : keeps_driver (driver_call op).
Proof.
  unfold driver_call. apply keeps_bind; [apply keeps_gets|]. intros s.
  destruct (driver s); [|apply keeps_raise].
  apply keeps_bind; [apply keeps_emit|]. intros _.
  apply keeps_bind; [apply keeps_answer|].
  intros [page|e]; [apply keeps_ret|apply keeps_raise].
Qed.

End KeepRules.

(** Shows that a composed computation leaves [self.driver] alone. *)
Ltac kept :=
  lazymatch goal with
  | |- keeps_driver (Eff.bind _ _) => apply keeps_bind; [kept | intros; kept]
  | |- keeps_driver (Eff.ret _) => apply keeps_ret
  | |- keeps_driver (Eff.raise _) => apply keeps_raise
  | |- keeps_driver (Eff.gets _) => apply keeps_gets
  | |- keeps_driver stock_price.self => apply keeps_gets
  | |- keeps_driver (Eff.emit _) => apply keeps_emit
  | |- keeps_driver (stock_price.log _ _) => apply keeps_emit
  | |- keeps_driver (stock_price.sleep _) => apply keeps_emit
  | |- keeps_driver (stock_price.assign _) =>
      apply keeps_assign; intros; reflexivity
  | |- keeps_driver (Eff.when _ _) => apply keeps_when; kept
  | |- keeps_driver (Eff.try_except _ _) =>
      apply keeps_try_except; [kept | intros; kept]
  | |- keeps_driver (Eff.try_except_all _ _) =>
      apply keeps_try_except_all; kept
  | |- keeps_driver (stock_price.call_parse_table _) =>
      apply keeps_call_parse_table
  | |- keeps_driver (stock_price.driver_call _) => apply keeps_driver_call
  | |- keeps_driver stock_price._has_next_page =>
      unfold stock_price._has_next_page; kept
  | |- keeps_driver stock_price._click_next_page =>
      unfold stock_price._click_next_page; kept
  | |- keeps_driver stock_price.scrape_pages =>
      unfold stock_price.scrape_pages; kept
  | |- keeps_driver (stock_price.scrape_failed _) =>
      unfold stock_price.scrape_failed; kept
  end.

(* ================================================================== *)
(** ** stock_price.py: the browser session *)
(* ================================================================== *)

Section Session.
Import Py Eff stock_price.
Context {PY : Py.builtins}.

Lemma scrape_pages_keeps_driver : keeps_driver scrape_pages.
Proof. kept. Qed.

Lemma scrape_failed_keeps_driver e : keeps_driver (scrape_failed e).
Proof. kept. Qed.

(** Starting the browser: either it fails, and the scraper is as before,
    or a new session is created and stored in [self.driver]. *)
Lemma setup_driver_cases s w :
  let options := chrome_options (headless s) in
  (exists e w',
      _setup_driver (s, w)
      = (Raise e, (s, w'), [New_session options None]))
  \/ (exists w',
      _setup_driver (s, w)
      = (Ret tt, (set_driver (Some (next_session w)) s, w'),
         [New_session options (Some (next_session w));
          Log (INFO, Chrome_WebDriver_initialized)])).
Proof.
  destruct w as [[|[page|e] rest] n]; cbn; eauto.
Qed.

(** When the guarded part of a scrape is over, a session it created is
    the one [self.driver] holds. *)
Lemma guarded_session s w options sid :
  let out := try_except (_setup_driver ;; scrape_pages) scrape_failed (s, w) in
  In (New_session options (Some sid)) (events out) ->
  driver (fst (store out)) = Some sid.
Proof.
  intros out Hin. subst out. unfold try_except, bind in *.
  destruct (setup_driver_cases s w) as [(e & w' & E)|(w' & E)];
    rewrite E in *; clear E.
  - destruct (is_Exception e); cbn in Hin; intuition discriminate.
  - set (st1 := (set_driver (Some (next_session w)) s, w')) in *.
    pose proof (scrape_pages_keeps_driver st1) as Hk.
    pose proof (scrape_pages_no_new_session st1) as Hn.
    destruct (scrape_pages st1) as [[r st2] evs2].
    unfold store, events, after in *. simpl in Hk, Hn.
    assert (Hnone : ~ In (New_session options (Some sid)) evs2).
    { intros Hc. apply (count_zero_In is_new_session) in Hc; [discriminate|lia]. }
    assert (Hsid : sid = next_session w).
    { revert Hin.
      destruct r as [a|e]; simpl; [|destruct (is_Exception e); simpl];
        intros [[= _ <-]|[[=]|Hin]]; try reflexivity; try contradiction.
      apply in_app_iff in Hin as [Hin|[[=]|[]]]. contradiction. }
    clear Hin.
    subst sid.
    destruct r as [a|e]; simpl; [|destruct (is_Exception e); simpl];
      exact Hk.
Qed.

(** The [finally] block calls [quit] on the session [self.driver] holds,
    and at most logs after that. *)
Lemma release_driver_quits st sid :
  driver (fst st) = Some sid ->
  exists rest,
    events (release_driver st) = Call sid Quit :: rest
    /\ (rest = [] \/ rest = [Log (INFO, Browser_closed)]).
Proof.
  destruct st as [[h d t] [script n]]. simpl. intros ->.
  destruct script as [|[page|e] script]; cbn;
    eexists; (split; [reflexivity|auto]).
Qed.

Lemma events_try_finally {A} (body : Method A) final st :
  events (try_finally body final st)
  = events (body st) ++ events (final (store (body st))).
Proof.
  unfold try_finally. destruct (body st) as [[r st1] evs1].
  unfold store. simpl.
  now destruct (final st1) as [[[a|e] st'] evs].
Qed.

End Session.

(** C2. In every run of [scrape_all_prices], whatever the browser does
    and whether the call returns or raises: if a browser session was
    created, [quit] is called on that session after its creation, and
    nothing else happens before the call ends except, at most, the log line
    that the browser was closed. *)
Theorem scrape_releases_session {PY : Py.builtins}
    (s : stock_price.ScreenerPriceScraper)
    (w : stock_price.world) (options : list string) (sid : stock_price.session) :
  let evs := Eff.events (stock_price.scrape_all_prices (s, w)) in
  In (stock_price.New_session options (Some sid)) evs ->
  exists before rest,
    evs = before ++ stock_price.Call sid stock_price.Quit :: rest
    /\ In (stock_price.New_session options (Some sid)) before
    /\ (rest = []
        \/ rest = [stock_price.Log (Py.INFO, stock_price.Browser_closed)]).
Proof.
  intros evs Hin. subst evs. unfold stock_price.scrape_all_prices in *.
  set (guarded := Eff.try_except _ _) in *.
  rewrite events_emit_bind, events_try_finally in *.
  assert (Hg : In (stock_price.New_session options (Some sid))
                  (Eff.events (guarded (s, w)))).
  { destruct Hin as [[=]|Hin]. apply in_app_iff in Hin as [Hin|Hin]; [exact Hin|].
    exfalso.
    pose proof (at_most_release_driver is_new_session
                  (fun _ => eq_refl) (fun _ => eq_refl)
                  (Eff.store (guarded (s, w)))) as H0.
    apply (count_zero_In is_new_session) in Hin; [discriminate|lia]. }
  pose proof (guarded_session s w options sid Hg) as Hd.
  fold guarded in Hd.
  destruct (release_driver_quits _ _ Hd) as (rest & -> & Hrest).
  exists (stock_price.Enter_scrape_all_prices :: Eff.events (guarded (s, w))), rest.
  repeat split; [now right|exact Hrest].
Qed.

Lemma scrape_releases_session_witness :
  exists before rest,
    Eff.events (stock_price.scrape_all_prices
                  (stock_price.init true, stock_price.World timeout_script 0))
    = before ++ stock_price.Call 0 stock_price.Quit :: rest
    /\ In (stock_price.New_session (stock_price.chrome_options true) (Some 0)) before
    /\ (rest = []
        \/ rest = [stock_price.Log (Py.INFO, stock_price.Browser_closed)]).
Proof.
  apply (scrape_releases_session (stock_price.init true)
           (stock_price.World timeout_script 0)
           (stock_price.chrome_options true) 0).
  simpl. right. left. reflexivity.
Defined.

(* ================================================================== *)
(** ** stock_price.py: pagination *)
(* ================================================================== *)

Section Merge.
Import Py.
Context {V : Type}.
Implicit Types (d : dict V) (k : string) (v : V).

Lemma getitem_setitem k k' v d :
  getitem k (setitem k' v d)
  = if String.eqb k' k then Some v else getitem k d.
Proof.
  induction d as [|[k0 v0] d IH]; simpl.
  - reflexivity.
  - destruct (String.eqb_spec k0 k') as [->|Hne]; simpl.
    + now destruct (String.eqb k' k).
    + rewrite IH. destruct (String.eqb_spec k0 k) as [->|_]; [|reflexivity].
      destruct (String.eqb_spec k' k) as [->|_]; [congruence|reflexivity].
Qed.

(** [update] is last-write-wins: a key of the second table takes its
    value from there, any other key keeps its value. *)
Lemma getitem_update k d other :
  List.NoDup (keys other) ->
  getitem k (update d other)
  = match getitem k other with
    | Some v => Some v
    | None => getitem k d
    end.
Proof.
  unfold update. revert d.
  induction other as [|[k0 v0] other IH]; simpl; intros d Hnd; [reflexivity|].
  inversion Hnd as [|? ? Hk Hnd']; subst.
  rewrite IH by assumption. rewrite getitem_setitem.
  destruct (getitem k other) as [v|] eqn:E.
  - destruct (String.eqb_spec k0 k) as [->|_]; [|reflexivity].
    exfalso. apply Hk. apply getitem_Some_In in E.
    unfold keys. apply in_map_iff. now exists (k, v).
  - now destruct (String.eqb k0 k).
Qed.

End Merge.

Section Pagination.
Import Py Eff stock_price.
Context {PY : Py.builtins}.

Lemma count_cons {Ev} (P : Ev -> bool) ev evs :
  count P (ev :: evs) = (if P ev then 1 else 0) + count P evs.
Proof. unfold count. simpl. now destruct (P ev). Qed.

Lemma count_nil {Ev} (P : Ev -> bool) : count P [] = 0.
Proof. reflexivity. Qed.

Lemma returns_inv r : returns r = true -> exists page, r = Returns page.
Proof. destruct r; [eauto|discriminate]. Qed.

End Pagination.

(** Counts the events of a kind in an explicit list of events. *)
Ltac count_events :=
  repeat first
    [ rewrite count_app
    | rewrite count_cons
    | rewrite count_nil
    | rewrite count_logs by (intros; reflexivity) ];
  simpl; try reflexivity.

(** C7 as claimed fails.  That the [Next] link was found does not mean
    that it is clicked, nor that a second page is merged and returned:
    [_click_next_page] looks for the link a second time, and when that
    search raises no click is made; and when the second read of the page
    source raises, the call returns the empty table while the stored one
    holds the first page. *)
Lemma next_found_not_followed :
  ~ (forall rest : list stock_price.reply,
        count is_click
          (Eff.events
             (stock_price.scrape_all_prices
                (stock_price.init true,
                 stock_price.World (next_found_script ++ rest) 0))) = 1)
  /\ ~ (forall rest : list stock_price.reply,
          Eff.value
            (stock_price.scrape_all_prices
               (stock_price.init true,
                stock_price.World (next_found_script ++ rest) 0))
          = Py.Ret
              (stock_price.stock_data
                 (fst (Eff.store
                         (stock_price.scrape_all_prices
                            (stock_price.init true,
                             stock_price.World (next_found_script ++ rest) 0)))))).
Proof.
  split; intros H.
  - specialize (H [stock_price.Raises (Py.Exception "NoSuchElementException");
                   stock_price.Returns page_A; ok]).
    vm_compute in H. discriminate H.
  - specialize (H [ok; ok;
                   stock_price.Raises (Py.Exception "WebDriverException"); ok]).
    vm_compute in H. discriminate H.
Qed.

(** C7, amended. A scrape reads the page once, looks for the [Next] link,
    and:
    - whatever the browser does, it reads the page source at most twice
      and clicks at most once, so a third page is never asked for;
    - when the link is there and every later call succeeds - the second
      search for the link, the click, the second read and [quit] - it
      clicks once, reads the second page and returns the first table
      updated with the second: a name of the second page takes its price
      from there, any other name keeps its price, and pages with different
      names give the entries of the first followed by those of the second;
    - when the link is not there and [quit] succeeds, it returns the table
      of the first page alone, without a click or a second read. *)
Theorem scrape_pagination {PY : Py.builtins}
    (s : stock_price.ScreenerPriceScraper)
    (n : stock_price.session) (page1 : bs4.html) :
  let table1 := fst (stock_price._parse_table page1) in
  (forall w,
      count is_page_read (Eff.events (stock_price.scrape_all_prices (s, w))) <= 2
      /\ count is_click (Eff.events (stock_price.scrape_all_prices (s, w))) <= 1)
  /\ (forall start get wait found found' click quit page2 rest,
      forallb returns [start; get; wait; found; found'; click; quit] = true ->
      let table2 := fst (stock_price._parse_table page2) in
      let merged := Py.update table1 table2 in
      let out :=
        stock_price.scrape_all_prices
          (s, stock_price.World
                (start :: get :: wait :: stock_price.Returns page1
                 :: found :: found' :: click :: stock_price.Returns page2
                 :: quit :: rest) n) in
      Eff.value out = Py.Ret merged
      /\ stock_price.stock_data (fst (Eff.store out)) = merged
      /\ count is_click (Eff.events out) = 1
      /\ count is_page_read (Eff.events out) = 2
      /\ (forall k,
            Py.getitem k merged
            = match Py.getitem k table2 with
              | Some v => Some v
              | None => Py.getitem k table1
              end)
      /\ ((forall k, In k (Py.keys table2) -> ~ In k (Py.keys table1)) ->
          merged = table1 ++ table2))
  /\ (forall start get wait e quit rest,
      forallb returns [start; get; wait; quit] = true ->
      let out :=
        stock_price.scrape_all_prices
          (s, stock_price.World
                (start :: get :: wait :: stock_price.Returns page1
                 :: stock_price.Raises e :: quit :: rest) n) in
      Eff.value out = Py.Ret table1
      /\ stock_price.stock_data (fst (Eff.store out)) = table1
      /\ count is_click (Eff.events out) = 0
      /\ count is_page_read (Eff.events out) = 1).
Proof.
  intros table1. split; [|split].
  - intros w. split; [apply scrape_page_reads|apply scrape_clicks].
  - intros start get wait found found' click quit page2 rest Hret
           table2 merged out.
    simpl in Hret. repeat (apply andb_prop in Hret as [? Hret]).
    repeat match goal with
           | H : returns ?r = true |- _ =>
               apply returns_inv in H as [? ->]
           end.
    subst out merged table2 table1. destruct s as [h d t].
    split; [|split; [|split; [|split; [|split]]]].
    + reflexivity.
    + reflexivity.
    + cbn -[Py.update stock_price._parse_table stock_price.chrome_options count].
      count_events.
    + cbn -[Py.update stock_price._parse_table stock_price.chrome_options count].
      count_events.
    + intros k. apply getitem_update, NoDup_parse_table.
    + intros Hdis. apply update_disjoint; [apply NoDup_parse_table|exact Hdis].
  - intros start get wait e quit rest Hret out.
    simpl in Hret. repeat (apply andb_prop in Hret as [? Hret]).
    repeat match goal with
           | H : returns ?r = true |- _ =>
               apply returns_inv in H as [? ->]
           end.
    subst out table1. destruct s as [h d t].
    split; [|split; [|split]].
    + reflexivity.
    + reflexivity.
    + cbn -[stock_price._parse_table stock_price.chrome_options count].
      count_events.
    + cbn -[stock_price._parse_table stock_price.chrome_options count].
      count_events.
Qed.

Lemma scrape_pagination_witness :
  Eff.value (stock_price.scrape_all_prices
               (stock_price.init true, stock_price.World two_page_script 0))
  = Py.Ret [("A", Py.Dec false 10 0); ("B", Py.Dec false 20 0)].
Proof.
  exact (proj1 (proj1 (proj2 (scrape_pagination (stock_price.init true) 0 page_A))
                  ok ok ok ok ok ok ok page_B [] eq_refl)).
Defined.

(* ================================================================== *)
(** ** stock_price.py: loading on first use *)
(* ================================================================== *)

Section LazyLoad.
Import Py Eff stock_price.
Context {PY : Py.builtins}.

Lemma is_empty_false (t : PriceTable) : t <> [] -> is_empty t = false.
Proof. destruct t; [congruence|reflexivity]. Qed.

(** On an empty table [get_price] scrapes, once, and answers from the
    table the scrape leaves. *)
Lemma get_price_unloaded q s w :
  stock_data s = [] ->
  let out := get_price q (s, w) in
  count is_scrape (events out) = 1
  /\ (forall p, value out = Ret p ->
                p = resolve q (stock_data (fst (store out)))).
Proof.
  intros Hempty out. subst out.
  pose proof (scrape_entered_once (s, w)) as Hone.
  unfold get_price, bind, self, gets, when. cbn -[scrape_all_prices].
  rewrite Hempty. cbn -[scrape_all_prices].
  destruct (scrape_all_prices (s, w)) as [[[t|e] [s1 w1]] evs1];
    cbn -[scrape_all_prices] in *.
  - destruct (has_key q (stock_data s1)) eqn:Hk;
      [destruct (getitem q (stock_data s1)) eqn:Hg|];
      cbn; rewrite ?app_nil_r; (split; [exact Hone|]);
      intros p' [= <-]; unfold resolve; now rewrite Hk, ?Hg.
  - split; [exact Hone|discriminate].
Qed.

(** On a table that is not empty, lookups never reach the browser. *)
Lemma get_prices_loaded qs s w :
  stock_data s <> [] ->
  events (get_prices qs (s, w)) = [] /\ store (get_prices qs (s, w)) = (s, w).
Proof.
  intros Hne.
  assert (E : exists r, get_prices qs (s, w) = (r, (s, w), [])).
  { induction qs as [|q qs [r IH]]; [now eexists|].
    simpl. unfold bind. rewrite get_price_loaded, IH by assumption.
    destruct (if has_key q (stock_data s) then _ else _) as [p|e];
      [destruct r|]; now eexists. }
  destruct E as [r ->]. now split.
Qed.

(** An unloaded fetcher scrapes once.  It marks the prices loaded when
    the scrape returns; an exception out of the scrape leaves the mark
    unset. *)
Lemma search_stock_unloaded q f w :
  prices_loaded f = false ->
  let out := search_stock q (f, w) in
  count is_scrape (events out) = 1
  /\ (forall r, value out = Ret r -> prices_loaded (fst (store out)) = true)
  /\ (forall e, value out = Raise e -> prices_loaded (fst (store out)) = false).
Proof.
  intros Hl out. subst out. destruct f as [sc loaded]. simpl in Hl. subst loaded.
  pose proof (scrape_entered_once (sc, w)) as Hone.
  unfold search_stock, load_prices, on_scraper, zoom, bind, gets, when.
  cbn -[scrape_all_prices count].
  destruct (scrape_all_prices (sc, w)) as [[[t|e] [s1 w1]] evs1];
    cbn -[scrape_all_prices count] in *.
  - split; [|split; [reflexivity|discriminate]].
    rewrite count_cons, !count_app, Hone. reflexivity.
  - split; [|split; [discriminate|reflexivity]].
    rewrite count_cons, Hone. reflexivity.
Qed.

(** A loaded fetcher never scrapes, whatever its table holds. *)
Lemma search_stocks_loaded qs f w :
  prices_loaded f = true ->
  events (search_stocks qs (f, w)) = [] /\ store (search_stocks qs (f, w)) = (f, w).
Proof.
  intros Hl.
  assert (E : exists r, search_stocks qs (f, w) = (r, (f, w), [])).
  { induction qs as [|q qs [r IH]]; [now eexists|].
    assert (E : search_stock q (f, w)
                = (Ret (matches (lower q) (stock_data (scraper f))), (f, w), [])).
    { unfold search_stock, bind, gets, when. cbn. rewrite Hl. reflexivity. }
    simpl. unfold bind. rewrite E, IH. destruct r; now eexists. }
  destruct E as [r ->]. now split.
Qed.

End LazyLoad.

(** C3 as claimed fails: when the first scrape finds no table the stored
    table stays empty, and the next lookup scrapes again. *)
Lemma second_lookup_scrapes_again :
  ~ (forall (w : stock_price.world) (q1 q2 : string),
        let first := stock_price.get_price q1 (stock_price.init true, w) in
        count is_scrape (Eff.events first) = 1
        /\ count is_scrape
             (Eff.events (stock_price.get_price q2 (Eff.store first))) = 0).
Proof.
  intros H.
  destruct (H (stock_price.World (no_table_script ++ no_table_script) 0)
              "TCS" "TCS") as [_ H2].
  vm_compute in H2. discriminate H2.
Qed.

(** C3, amended. A lookup on a scraper whose table is empty, as that of a
    fresh scraper is, triggers exactly one scrape and, when it returns,
    answers from the table the scrape leaves.  Lookups on a table that is
    not empty trigger no scrape and leave the scraper and the browser
    untouched, however many follow.  Through [InteractiveStockFetcher] a
    search on a fetcher not yet marked as loaded scrapes exactly once;
    when that search returns the fetcher is marked, whatever the scrape
    returned, and when the scrape raises the fetcher stays unmarked, so
    that the next search scrapes again.  On a marked fetcher no search
    scrapes, however many follow. *)
Theorem lazy_load_on_first_use {PY : Py.builtins}
    (q : string) (qs : list string) :
  (forall s w,
      stock_price.stock_data s = [] ->
      let out := stock_price.get_price q (s, w) in
      count is_scrape (Eff.events out) = 1
      /\ (forall p, Eff.value out = Py.Ret p ->
                    p = resolve q (stock_price.stock_data (fst (Eff.store out)))))
  /\ (forall s w,
      stock_price.stock_data s <> [] ->
      Eff.events (get_prices qs (s, w)) = []
      /\ Eff.store (get_prices qs (s, w)) = (s, w))
  /\ (forall f w,
      stock_price.prices_loaded f = false ->
      let out := stock_price.search_stock q (f, w) in
      count is_scrape (Eff.events out) = 1
      /\ (forall r, Eff.value out = Py.Ret r ->
                    stock_price.prices_loaded (fst (Eff.store out)) = true)
      /\ (forall e, Eff.value out = Py.Raise e ->
                    stock_price.prices_loaded (fst (Eff.store out)) = false))
  /\ (forall f w,
      stock_price.prices_loaded f = true ->
      Eff.events (search_stocks qs (f, w)) = []
      /\ Eff.store (search_stocks qs (f, w)) = (f, w)).
Proof.
  split; [|split; [|split]].
  - intros s w. now apply get_price_unloaded.
  - intros s w. now apply get_prices_loaded.
  - intros f w. now apply search_stock_unloaded.
  - intros f w. now apply search_stocks_loaded.
Qed.

(** One scrape for the first lookup and none for lookups on the loaded
    table; one scrape for the first search, which marks the fetcher, and
    none for searches on a marked fetcher, even with an empty table; and
    a first search whose scrape raises, at [quit], leaves the fetcher
    unmarked. *)
Lemma lazy_load_on_first_use_witness :
  count is_scrape
    (Eff.events (stock_price.get_price "HDFC"
                   (stock_price.init true,
                    stock_price.World two_page_script 0))) = 1
  /\ Eff.events (get_prices ["HDFC"; "TCS"]
                   (stock_price.Scraper true None tcs_table,
                    stock_price.World two_page_script 0)) = []
  /\ count is_scrape
       (Eff.events (stock_price.search_stock "HDFC"
                      (stock_price.init_fetcher,
                       stock_price.World no_table_script 0))) = 1
  /\ stock_price.prices_loaded
       (fst (Eff.store (stock_price.search_stock "HDFC"
                          (stock_price.init_fetcher,
                           stock_price.World no_table_script 0)))) = true
  /\ Eff.events (search_stocks ["HDFC"; "TCS"]
                   (stock_price.Fetcher (stock_price.init true) true,
                    stock_price.World two_page_script 0)) = []
  /\ stock_price.prices_loaded
       (fst (Eff.store (stock_price.search_stock "HDFC"
                          (stock_price.init_fetcher,
                           stock_price.World quit_fails_script 0)))) = false.
Proof.
  pose proof (lazy_load_on_first_use "HDFC" ["HDFC"; "TCS"])
    as (Hfirst & Hlater & Hsearch & Hmarked).
  split; [|split; [|split; [|split; [|split]]]].
  - exact (proj1 (Hfirst (stock_price.init true)
                    (stock_price.World two_page_script 0) eq_refl)).
  - refine (proj1 (Hlater (stock_price.Scraper true None tcs_table)
                     (stock_price.World two_page_script 0) _)).
    discriminate.
  - exact (proj1 (Hsearch stock_price.init_fetcher
                    (stock_price.World no_table_script 0) eq_refl)).
  - exact (proj1 (proj2 (Hsearch stock_price.init_fetcher
                           (stock_price.World no_table_script 0) eq_refl))
             [] eq_refl).
  - exact (proj1 (Hmarked (stock_price.Fetcher (stock_price.init true) true)
                    (stock_price.World two_page_script 0) eq_refl)).
  - exact (proj2 (proj2 (Hsearch stock_price.init_fetcher
                           (stock_price.World quit_fails_script 0) eq_refl))
             (Py.Exception "WebDriverException") eq_refl).
Defined.

(* ================================================================== *)
(** ** stock_price.py: resolution of a query *)
(* ================================================================== *)

(** C4. The table [get_price] answers from is the stored one when that
    is loaded, that is, not empty; the lookup then returns without touching
    the browser.  Against the table it answers from, the price returned is
    the one stored under the query when the query is a key, whatever other
    names contain it; when it is not a key, the price of the first entry,
    in the order of the table, whose lowercased name contains the
    lowercased query; and [None] when there is no such entry. *)
Theorem get_price_resolution {PY : Py.builtins}
    (s : stock_price.ScreenerPriceScraper)
    (w : stock_price.world) (q : string) :
  let out := stock_price.get_price q (s, w) in
  let table := stock_price.stock_data (fst (Eff.store out)) in
  (stock_price.stock_data s <> [] ->
   Eff.store out = (s, w) /\ Eff.events out = []
   /\ (List.NoDup (Py.keys table) -> exists p, Eff.value out = Py.Ret p))
  /\ (forall p,
      Eff.value out = Py.Ret p ->
      List.NoDup (Py.keys table) ->
      (forall price, In (q, price) table -> p = Some price)
      /\ (forall pre name price post,
          ~ In q (Py.keys table) ->
          table = pre ++ (name, price) :: post ->
          (forall n v, In (n, v) pre ->
                       Py.contains (Py.lower q) (Py.lower n) = false) ->
          Py.contains (Py.lower q) (Py.lower name) = true ->
          p = Some price)
      /\ (~ In q (Py.keys table) ->
          (forall n v, In (n, v) table ->
                       Py.contains (Py.lower q) (Py.lower n) = false) ->
          p = None)).
Proof.
  intros out table.
  assert (Hres : forall p, Eff.value out = Py.Ret p -> p = resolve q table).
  { destruct (stock_price.stock_data s) as [|entry d] eqn:E.
    - apply (get_price_unloaded q s w E).
    - subst out table. intros p.
      rewrite get_price_loaded by congruence. unfold Eff.value, Eff.store.
      simpl fst. simpl snd. unfold resolve. rewrite E.
      destruct (Py.has_key q (entry :: d)); [|now intros [= <-]].
      destruct (Py.getitem q (entry :: d)); [now intros [= <-]|discriminate]. }
  split.
  - intros Hne. subst out table.
    rewrite get_price_loaded by assumption. unfold Eff.value, Eff.store.
    simpl fst. simpl snd. repeat split.
    intros Hnd.
    destruct (Py.has_key q (stock_price.stock_data s)) eqn:Hk; [|now eexists].
    apply has_key_In in Hk. unfold Py.keys in Hk.
    apply in_map_iff in Hk as ([k v] & <- & Hin).
    rewrite (getitem_In k v) by assumption. now eexists.
  - intros p Hp Hnd. rewrite (Hres p Hp). unfold resolve. repeat split.
    + intros price Hin.
      assert (Hk : Py.has_key q table = true).
      { apply has_key_In. unfold Py.keys. apply in_map_iff. now exists (q, price). }
      rewrite Hk. now apply getitem_In.
    + intros pre name price post Hk Hsplit Hpre Hhit.
      apply has_key_false in Hk. rewrite Hk, Hsplit.
      rewrite first_match_app_skip by assumption. simpl. now rewrite Hhit.
    + intros Hk Hnone. apply has_key_false in Hk. rewrite Hk.
      now rewrite first_match_none.
Qed.

Lemma get_price_resolution_witness :
  Eff.value (stock_price.get_price "TCS"
               (stock_price.Scraper true None tcs_table, stock_price.World [] 0))
  = Py.Ret (Some (Py.Dec false 3900 0)).
Proof.
  destruct (get_price_resolution (stock_price.Scraper true None tcs_table)
              (stock_price.World [] 0) "TCS") as [Hloaded Hres].
  destruct Hloaded as (_ & _ & Hex); [discriminate|].
  assert (Hnd : List.NoDup
                  (Py.keys
                     (stock_price.stock_data
                        (fst (Eff.store
                                (stock_price.get_price "TCS"
                                   (stock_price.Scraper true None tcs_table,
                                    stock_price.World [] 0)))))))
    by (simpl; repeat constructor; simpl; intuition discriminate).
  destruct (Hex Hnd) as [p Hp]. rewrite Hp. f_equal.
  apply (proj1 (Hres p Hp Hnd)). simpl. right. left. reflexivity.
Defined.

(** C10. Once the prices are loaded, [search_stock] with the empty
    string, or with any query whose lowercase form is found in every
    lowercased name, returns all the entries of the table, in the order of
    the table; nothing is scraped and nothing changes. *)
Theorem search_stock_all {PY : Py.builtins}
    (f : stock_price.InteractiveStockFetcher)
    (w : stock_price.world) (query : string) :
  stock_price.prices_loaded f = true ->
  query = ""
  \/ (forall name price,
        In (name, price) (stock_price.stock_data (stock_price.scraper f)) ->
        Py.contains (Py.lower query) (Py.lower name) = true) ->
  stock_price.search_stock query (f, w)
  = (Py.Ret (stock_price.stock_data (stock_price.scraper f)), (f, w), []).
Proof.
  intros Hl Hq.
  unfold stock_price.search_stock, Eff.bind, Eff.gets, Eff.when, Eff.ret. cbn.
  rewrite Hl. cbn. rewrite matches_all; [reflexivity|].
  destruct Hq as [->|Hq]; [|exact Hq].
  intros name price _. rewrite Py.lower_of_empty. apply contains_empty.
Qed.

Lemma search_stock_all_witness :
  stock_price.search_stock ""
    ({| stock_price.scraper := stock_price.Scraper true None tcs_table;
        stock_price.prices_loaded := true |},
     stock_price.World [] 0)
  = (Py.Ret tcs_table,
     ({| stock_price.scraper := stock_price.Scraper true None tcs_table;
         stock_price.prices_loaded := true |},
      stock_price.World [] 0), []).
Proof.
  apply (search_stock_all
           {| stock_price.scraper := stock_price.Scraper true None tcs_table;
              stock_price.prices_loaded := true |}
           (stock_price.World [] 0) "");
    [reflexivity | left; reflexivity].
Defined.

Example float_examples :
  PyASCII.float "1531.75" = Some (Py.Dec false 153175 (-2))
  /\ PyASCII.float "1004.00" = Some (Py.Dec false 1004 0)
  /\ PyASCII.float "10.0" = Some (Py.Dec false 10 0)
  /\ PyASCII.float "0.00" = Some (Py.Dec false 0 0)
  /\ PyASCII.float "-0.0" = Some (Py.Dec true 0 0)
  /\ PyASCII.float "-0.0625" = Some (Py.Dec true 625 (-4))
  /\ PyASCII.float "1_000.5e1" = Some (Py.Dec false 10005 0)
  /\ PyASCII.float "1E+2" = Some (Py.Dec false 100 0)
  /\ PyASCII.float "15e-1" = Some (Py.Dec false 15 (-1))
  /\ PyASCII.float "120e-1" = Some (Py.Dec false 12 0)
  /\ PyASCII.float ".5" = Some (Py.Dec false 5 (-1))
  /\ PyASCII.float "5." = Some (Py.Dec false 5 0)
  /\ PyASCII.float " 7 " = Some (Py.Dec false 7 0)
  /\ PyASCII.float "-Infinity" = Some (Py.Inf true)
  /\ PyASCII.float "+inf" = Some (Py.Inf false)
  /\ PyASCII.float "NaN" = Some Py.NaN
  /\ PyASCII.float "n/a" = None
  /\ PyASCII.float "" = None
  /\ PyASCII.float "." = None
  /\ PyASCII.float "1e" = None
  /\ PyASCII.float "1_" = None
  /\ PyASCII.float "1__0" = None
  /\ PyASCII.float "1.5 x" = None
  /\ PyASCII.float "1,5" = None.
Proof. repeat split; reflexivity. Qed.

(** Rounding to binary64: the nearest number, which for most decimals is
    not the decimal itself; beyond the range an infinity, and below the
    smallest subnormal a zero. *)
Example float_rounding :
  PyASCII.float "0.1"
  = Some (Py.Dec false
            1000000000000000055511151231257827021181583404541015625 (-55))
  /\ PyASCII.float "9007199254740993" = Some (Py.Dec false 9007199254740992 0)
  /\ PyASCII.float "1e23" = Some (Py.Dec false 99999999999999991611392 0)
  /\ PyASCII.float "1e400" = Some (Py.Inf false)
  /\ PyASCII.float "1.7976931348623159e308" = Some (Py.Inf false)
  /\ PyASCII.float "-1e-400" = Some (Py.Dec true 0 0).
Proof. repeat split; vm_compute; reflexivity. Qed.


(* ================================================================== *)
(** ** main.py: what [get_price] can answer *)
(* ================================================================== *)

(** X1. Whatever the provider does, [main.get_price] lets no [Exception]
    out: if it raises, the provider raised that very exception and it is
    not an [Exception].  A price it returns is never zero, and it is the
    provider's fast price or its latest close. *)
Theorem main_get_price_safe (yf : main.provider) (ticker : string) :
  let t := main.with_suffix ticker in
  let out := main.get_price yf ticker tt in
  (forall e,
      Eff.value out = Py.Raise e ->
      Py.is_Exception e = false
      /\ (main.fast_info_lastPrice yf t = Py.Raise e
          \/ main.history_1d_Close yf t = Py.Raise e))
  /\ (forall p,
      Eff.value out = Py.Ret (Some p) ->
      Py.eq_zero p = false
      /\ (main.fast_info_lastPrice yf t = Py.Ret (Some p)
          \/ exists closes,
               main.history_1d_Close yf t = Py.Ret closes
               /\ last closes = Some p)).
Proof.
  intros t out. subst out.
  unfold main.get_price, Eff.try_except, Eff.bind, main.log, Eff.emit, main.call.
  fold t. cbn.
  destruct (main.fast_info_lastPrice yf t) as [[p0|]|e0] eqn:Hf; cbn.
  - destruct (Py.eq_zero p0) eqn:Hz; cbn.
    + destruct (main.history_1d_Close yf t) as [closes|e1] eqn:Hh; cbn.
      * unfold main.iloc_last.
        destruct (last closes) as [c|] eqn:Hl; cbn.
        -- destruct (Py.eq_zero c) eqn:Hc; cbn; split; try discriminate.
           intros p [= <-]. split; [exact Hc|]. right. now exists closes.
        -- rewrite Hz. cbn. split; discriminate.
      * destruct (Py.is_Exception e1) eqn:He; cbn; split; try discriminate.
        intros e [= <-]. auto.
    + rewrite Hz. cbn. split; [discriminate|].
      intros p [= <-]. auto.
  - destruct (main.history_1d_Close yf t) as [closes|e1] eqn:Hh; cbn.
    + unfold main.iloc_last.
      destruct (last closes) as [c|] eqn:Hl; cbn.
      * destruct (Py.eq_zero c) eqn:Hc; cbn; split; try discriminate.
        intros p [= <-]. split; [exact Hc|]. right. now exists closes.
      * split; discriminate.
    + destruct (Py.is_Exception e1) eqn:He; cbn; split; try discriminate.
      intros e [= <-]. auto.
  - destruct (Py.is_Exception e0) eqn:He; cbn; split; try discriminate.
    intros e [= <-]. auto.
Qed.

Lemma main_get_price_safe_witness :
  Py.eq_zero (Py.Dec false 15005 (-1)) = false
  /\ (main.fast_info_lastPrice sample_provider "INFY.NS"
      = Py.Ret (Some (Py.Dec false 15005 (-1)))
      \/ exists closes,
           main.history_1d_Close sample_provider "INFY.NS" = Py.Ret closes
           /\ last closes = Some (Py.Dec false 15005 (-1))).
Proof.
  apply (proj2 (main_get_price_safe sample_provider "INFY")
           (Py.Dec false 15005 (-1))).
  reflexivity.
Defined.

(** X2. When the fast price is there and not zero, the historical query
    plays no part: two providers with the same fast price give the same
    answer and the same log, whatever their history does. *)
Theorem main_get_price_fast_only (yf yf' : main.provider) (ticker : string)
    (p : Py.pyfloat) :
  let t := main.with_suffix ticker in
  main.fast_info_lastPrice yf t = Py.Ret (Some p) ->
  main.fast_info_lastPrice yf' t = Py.Ret (Some p) ->
  Py.eq_zero p = false ->
  main.get_price yf ticker tt = main.get_price yf' ticker tt
  /\ Eff.events (main.get_price yf ticker tt)
     = [(Py.INFO, main.Fetching_price t);
        (Py.INFO, main.Successfully_fetched t p)].
Proof.
  intros t Hf Hf' Hz.
  unfold main.get_price, Eff.try_except, Eff.bind, main.log, Eff.emit, main.call.
  fold t. rewrite Hf, Hf'. cbn. rewrite Hz. cbn. rewrite Hz. now split.
Qed.

Lemma main_get_price_fast_only_witness :
  main.get_price sample_provider "TCS" tt
  = main.get_price
      {| main.fast_info_lastPrice := main.fast_info_lastPrice sample_provider;
         main.history_1d_Close := main.history_1d_Close interrupted_provider |}
      "TCS" tt.
Proof.
  apply (main_get_price_fast_only sample_provider
           {| main.fast_info_lastPrice := main.fast_info_lastPrice sample_provider;
              main.history_1d_Close := main.history_1d_Close interrupted_provider |}
           "TCS" (Py.Dec false 3900 0));
    reflexivity.
Defined.

(* ================================================================== *)
(** ** main.py: clean symbols, batches and stock info *)
(* ================================================================== *)

Section CleanFacts.
Import Py.

Lemma append_empty_r (s : string) : s +:+ "" = s.
Proof.
  induction s as [|c s IH]; [reflexivity|].
  change (String c (s +:+ "") = String c s). now f_equal.
Qed.

Lemma endswith_contains (s suffix : string) :
  endswith s suffix = true -> contains suffix s = true.
Proof.
  intros H. apply endswith_spec in H as [p ->].
  apply contains_spec. exists p, "". now rewrite append_empty_r.
Qed.

Lemma contains_tail (sub : string) c s :
  contains sub (String c s) = false ->
  startswith (String c s) sub = false /\ contains sub s = false.
Proof. cbn [contains]. now intros H%orb_false_elim. Qed.

(** Text without the part to drop is left as it is. *)
Lemma remove_all_absent (old s : string) :
  contains old s = false -> remove_all old s = s.
Proof.
  unfold remove_all. induction s as [|c s IH]; [reflexivity|].
  intros [Hs Hc]%contains_tail. cbn [remove_all_from].
  rewrite Hs, IH by assumption. reflexivity.
Qed.

(** In front of [.NS], only text that itself starts with [.NS] makes the
    whole start with [.NS]. *)
Lemma startswith_app_NS c s :
  startswith (String c s +:+ ".NS") ".NS" = startswith (String c s) ".NS".
Proof.
  assert (Hcons : forall a p b t,
             startswith (String b t) (String a p)
             = Ascii.eqb a b && startswith t p) by reflexivity.
  assert (Happ : forall a t u, String a t +:+ u = String a (t +:+ u))
    by reflexivity.
  destruct s as [|b [|a s]]; rewrite !Happ, !Hcons.
  - f_equal.
  - do 2 f_equal.
  - do 3 f_equal. now rewrite !startswith_empty.
Qed.

(** Dropping [.NS] from a bare symbol followed by [.NS] gives the symbol
    back. *)
Lemma remove_all_suffixed (b : string) :
  contains ".NS" b = false -> remove_all ".NS" (b +:+ ".NS") = b.
Proof.
  unfold remove_all. induction b as [|c b IH]; [reflexivity|].
  intros [Hs Hc]%contains_tail.
  change (String c b +:+ ".NS") with (String c (b +:+ ".NS")).
  cbn [remove_all_from].
  change (String c (b +:+ ".NS")) with (String c b +:+ ".NS").
  rewrite startswith_app_NS, Hs, IH by assumption. reflexivity.
Qed.

Lemma bare_not_suffixed (b : string) : bare b -> endswith b ".NS" = false.
Proof.
  unfold bare. intros Hb. destruct (endswith b ".NS") eqn:E; [|reflexivity].
  apply endswith_contains in E. congruence.
Qed.

Lemma with_suffix_bare (b : string) :
  bare b -> main.with_suffix b = b +:+ ".NS".
Proof. intros Hb. unfold main.with_suffix. now rewrite bare_not_suffixed. Qed.

Lemma with_suffix_suffixed (b : string) :
  main.with_suffix (b +:+ ".NS") = b +:+ ".NS".
Proof. unfold main.with_suffix. now rewrite endswith_app. Qed.

Lemma clean_bare (b : string) : bare b -> main.clean b = b.
Proof. apply remove_all_absent. Qed.

Lemma clean_suffixed (b : string) : bare b -> main.clean (b +:+ ".NS") = b.
Proof. apply remove_all_suffixed. Qed.

(** The bare and the suffixed form of a symbol are the same query. *)
Lemma get_price_suffixed yf (b : string) :
  bare b -> main.get_price yf (b +:+ ".NS") = main.get_price yf b.
Proof.
  intros Hb. unfold main.get_price.
  now rewrite with_suffix_suffixed, with_suffix_bare.
Qed.

End CleanFacts.

Example clean_examples :
  main.clean "RELIANCE.NS" = "RELIANCE"
  /\ main.clean "RELIANCE" = "RELIANCE"
  /\ main.clean "A.NSB.NS" = "AB"
  /\ main.clean "..NSNS" = ".NS"
  /\ main.clean ".NS" = "".
Proof. repeat split; reflexivity. Qed.

Section Batch.
Import Py Eff.

(** A [try] whose [except Exception] clause cannot raise an [Exception]
    lets none out. *)
Lemma try_except_no_Exception {St Ev A} (body : M St Ev A) handler st e :
  (forall e' st' e'',
      Eff.value (handler e' st') = Raise e'' -> is_Exception e'' = false) ->
  Eff.value (try_except body handler st) = Raise e ->
  is_Exception e = false.
Proof.
  intros Hh. unfold try_except.
  destruct (body st) as [[[a|e0] st'] evs]; [discriminate|].
  destruct (is_Exception e0) eqn:E.
  - rewrite value_after. apply Hh.
  - now intros [= <-].
Qed.

Lemma main_get_price_no_Exception yf t e :
  Eff.value (main.get_price yf t tt) = Raise e -> is_Exception e = false.
Proof.
  unfold main.get_price. apply try_except_no_Exception.
  intros e' st' e''. discriminate.
Qed.

(** One turn of the loop of [get_multiple_prices]. *)
Lemma fetch_each_step yf t ts acc :
  Eff.value (main.fetch_each yf (t :: ts) acc tt)
  = match Eff.value (main.get_price yf t tt) with
    | Ret (Some p) =>
        Eff.value (main.fetch_each yf ts (setitem (main.clean t) p acc) tt)
    | Ret None => Eff.value (main.fetch_each yf ts acc tt)
    | Raise e => Raise e
    end.
Proof.
  simpl. unfold bind.
  destruct (main.get_price yf t tt) as [[[[p|]|e] []] evs];
    [rewrite value_after|rewrite value_after|]; reflexivity.
Qed.

Lemma length_setitem {V} k (v : V) (d : dict V) :
  List.length (setitem k v d) <= S (List.length d).
Proof.
  induction d as [|[k' v'] d IH]; simpl; [lia|].
  destruct (String.eqb k' k); simpl; lia.
Qed.

Lemma quote_Some yf t p :
  Eff.value (main.get_price yf t tt) = Ret (Some p) -> quote yf t = Some p.
Proof. unfold quote. now intros ->. Qed.

(** What the loop keeps true of the dictionary it builds. *)
Lemma fetch_each_sound yf ts : forall acc prices,
  Eff.value (main.fetch_each yf ts acc tt) = Ret prices ->
  List.length prices <= List.length acc + List.length ts
  /\ (forall k v, In (k, v) prices ->
        In (k, v) acc
        \/ exists t, In t ts /\ k = main.clean t /\ quote yf t = Some v).
Proof.
  induction ts as [|t ts IH]; intros acc prices.
  - simpl. intros [= <-]. split; [lia|auto].
  - rewrite fetch_each_step.
    destruct (Eff.value (main.get_price yf t tt)) as [[p|]|e] eqn:E;
      [| |discriminate]; intros H; apply IH in H as [Hlen Hin].
    + split.
      * pose proof (length_setitem (main.clean t) p acc). simpl. lia.
      * intros k v Hkv. destruct (Hin k v Hkv) as [Hacc|(t' & Ht' & Hk & Hq)].
        -- apply In_setitem in Hacc as [[-> ->]|Hacc]; [|now left].
           right. exists t. repeat split; [now left|now apply quote_Some].
        -- right. exists t'. repeat split; [now right|assumption..].
    + split; [simpl; lia|].
      intros k v Hkv. destruct (Hin k v Hkv) as [Hacc|(t' & Ht' & Hk & Hq)];
        [now left|].
      right. exists t'. repeat split; [now right|assumption..].
Qed.

Lemma fetch_each_no_Exception yf ts : forall acc e,
  Eff.value (main.fetch_each yf ts acc tt) = Raise e -> is_Exception e = false.
Proof.
  induction ts as [|t ts IH]; intros acc e; [discriminate|].
  rewrite fetch_each_step.
  destruct (Eff.value (main.get_price yf t tt)) as [[p|]|e'] eqn:E; eauto.
  intros [= ->]. now apply main_get_price_no_Exception in E.
Qed.

End Batch.

Section BatchMore.
Import Py Eff.

Lemma main_get_price_nonzero yf t p :
  Eff.value (main.get_price yf t tt) = Ret (Some p) -> eq_zero p = false.
Proof.
  unfold main.get_price, try_except, bind, main.log, emit, main.call. cbn.
  destruct (main.fast_info_lastPrice yf _) as [[p0|]|e0]; cbn.
  - destruct (eq_zero p0) eqn:Hz; cbn.
    + destruct (main.history_1d_Close yf _) as [closes|e1]; cbn.
      * destruct (main.iloc_last closes) as [c|]; cbn.
        -- destruct (eq_zero c) eqn:Hc; cbn; [discriminate|now intros [= <-]].
        -- rewrite Hz. discriminate.
      * destruct (is_Exception e1); discriminate.
    + rewrite Hz. cbn. now intros [= <-].
  - destruct (main.history_1d_Close yf _) as [closes|e1]; cbn.
    + destruct (main.iloc_last closes) as [c|]; cbn; [|discriminate].
      destruct (eq_zero c) eqn:Hc; cbn; [discriminate|now intros [= <-]].
    + destruct (is_Exception e1); discriminate.
  - destruct (is_Exception e0); discriminate.
Qed.

Lemma quote_nonzero yf t p : quote yf t = Some p -> eq_zero p = false.
Proof.
  unfold quote.
  destruct (Eff.value (main.get_price yf t tt)) as [o|e] eqn:E; [|discriminate].
  intros ->. now apply main_get_price_nonzero in E.
Qed.

(** With symbols that are bare and all different, the loop appends the
    prices it gets, in the order of the list. *)
Lemma fetch_each_bare yf ts : forall acc,
  List.NoDup ts ->
  Forall bare ts ->
  (forall t, In t ts -> ~ In t (keys acc)) ->
  (forall t e, In t ts -> Eff.value (main.get_price yf t tt) <> Raise e) ->
  Eff.value (main.fetch_each yf ts acc tt)
  = Ret (acc ++ omap (fun t => option_map (pair t) (quote yf t)) ts).
Proof.
  induction ts as [|t ts IH]; intros acc Hnd Hbare Hfresh Hok.
  - simpl. now rewrite app_nil_r.
  - rewrite fetch_each_step. inversion Hnd as [|? ? Hnt Hnd']; subst.
    inversion Hbare as [|? ? Hb Hbare']; subst.
    cbn [omap list_omap]. unfold quote at 1.
    destruct (Eff.value (main.get_price yf t tt)) as [[p|]|e] eqn:E.
    + rewrite clean_bare by assumption. cbn [option_map].
      rewrite keys_setitem_fresh by (apply Hfresh; now left).
      rewrite IH; [now rewrite <- app_assoc|assumption..| |].
      * intros t' Ht'. unfold keys. rewrite map_app, in_app_iff. simpl.
        intros [H|[<-|[]]]; [|contradiction].
        apply (Hfresh t'); [now right|exact H].
      * intros t' e Ht'. apply Hok. now right.
    + cbn [option_map]. apply IH; try assumption.
      * intros t' Ht'. apply Hfresh. now right.
      * intros t' e Ht'. apply Hok. now right.
    + exfalso. apply (Hok t e); [now left|exact E].
Qed.

(** Handing the loop suffixed symbols instead of bare ones changes
    nothing. *)
Lemma fetch_each_suffixed yf ts : forall acc st,
  Forall bare ts ->
  main.fetch_each yf (map (fun t => t +:+ ".NS") ts) acc st
  = main.fetch_each yf ts acc st.
Proof.
  induction ts as [|t ts IH]; intros acc st Hbare; [reflexivity|].
  inversion Hbare as [|? ? Hb Hbare']; subst. simpl. unfold bind.
  rewrite get_price_suffixed, clean_suffixed, clean_bare by assumption.
  destruct (main.get_price yf t st) as [[[[p|]|e] st'] evs];
    [now rewrite IH|now rewrite IH|reflexivity].
Qed.

End BatchMore.

(** X3. Every entry [get_multiple_prices] returns was earned: its key is
    the cleaned form of a ticker of the list, and its value is the price
    [get_price] gave for that ticker, never zero.  There are at most as
    many entries as tickers, and no [Exception] gets out. *)
Theorem get_multiple_prices_sound (yf : main.provider) (tickers : list string) :
  let out := main.get_multiple_prices yf tickers tt in
  (forall e, Eff.value out = Py.Raise e -> Py.is_Exception e = false)
  /\ (forall prices,
      Eff.value out = Py.Ret prices ->
      List.length prices <= List.length tickers
      /\ (forall k v,
            In (k, v) prices ->
            Py.eq_zero v = false
            /\ exists t, In t tickers /\ k = main.clean t /\ quote yf t = Some v)).
Proof.
  intros out. subst out. unfold main.get_multiple_prices. split.
  - intros e. apply fetch_each_no_Exception.
  - intros prices H. apply fetch_each_sound in H as [Hlen Hin].
    split; [exact Hlen|].
    intros k v Hkv. destruct (Hin k v Hkv) as [[]|(t & Ht & Hk & Hq)].
    split; [now apply (quote_nonzero yf t)|]. now exists t.
Qed.

Lemma get_multiple_prices_sound_witness :
  Py.eq_zero (Py.Dec false 15005 (-1)) = false
  /\ exists t,
       In t ["TCS"; "WIPRO"; "INFY.NS"]
       /\ "INFY" = main.clean t
       /\ quote sample_provider t = Some (Py.Dec false 15005 (-1)).
Proof.
  apply (proj2 (proj2 (get_multiple_prices_sound sample_provider
                         ["TCS"; "WIPRO"; "INFY.NS"])
                  [("TCS", Py.Dec false 3900 0);
                   ("INFY", Py.Dec false 15005 (-1))] eq_refl)).
  simpl. right. left. reflexivity.
Defined.

(** X4. Partial success keeps the order: for bare tickers that are all
    different, and a provider that is not interrupted, the result lists
    each ticker that got a price under its own name, in the order of the
    list, and leaves the others out. *)
Theorem get_multiple_prices_bare (yf : main.provider) (tickers : list string) :
  List.NoDup tickers ->
  Forall bare tickers ->
  (forall t e, In t tickers ->
               Eff.value (main.get_price yf t tt) <> Py.Raise e) ->
  Eff.value (main.get_multiple_prices yf tickers tt)
  = Py.Ret (omap (fun t => option_map (pair t) (quote yf t)) tickers).
Proof.
  intros Hnd Hbare Hok. unfold main.get_multiple_prices.
  rewrite (fetch_each_bare yf tickers []); auto.
Qed.

Lemma get_multiple_prices_bare_witness :
  Eff.value (main.get_multiple_prices sample_provider ["INFY"; "WIPRO"; "TCS"] tt)
  = Py.Ret [("INFY", Py.Dec false 15005 (-1)); ("TCS", Py.Dec false 3900 0)].
Proof.
  apply (get_multiple_prices_bare sample_provider ["INFY"; "WIPRO"; "TCS"]).
  - repeat constructor; simpl; intuition discriminate.
  - repeat constructor.
  - intros t e [<-|[<-|[<-|[]]]]; discriminate.
Defined.

(** X5. Bare or suffixed, the batch is the same: for bare tickers,
    handing each one with [.NS] appended gives the same dictionary, under
    the same bare keys, and the same log. *)
Theorem get_multiple_prices_suffixed (yf : main.provider)
    (tickers : list string) :
  Forall bare tickers ->
  main.get_multiple_prices yf (map (fun t => t +:+ ".NS") tickers) tt
  = main.get_multiple_prices yf tickers tt.
Proof.
  intros Hbare. unfold main.get_multiple_prices.
  now apply fetch_each_suffixed.
Qed.

Lemma get_multiple_prices_suffixed_witness :
  main.get_multiple_prices sample_provider ["INFY.NS"; "TCS.NS"] tt
  = main.get_multiple_prices sample_provider ["INFY"; "TCS"] tt.
Proof.
  apply (get_multiple_prices_suffixed sample_provider ["INFY"; "TCS"]).
  repeat constructor.
Defined.

Section StockInfo.
Import Py Eff.

Lemma info_get_Raise info key default e :
  main.info_get info key default = Raise e -> info key = Raise e.
Proof.
  unfold main.info_get.
  destruct (info key) as [[v|]|e']; try discriminate. now intros [= ->].
Qed.

(** The outcome of [get_stock_info] in terms of the six lookups, made in
    the order of the dictionary. *)
Lemma get_stock_info_run fi ticker :
  let t := main.with_suffix ticker in
  let get key default := main.info_get (fi t) key default in
  forall d,
    Eff.value (main.get_stock_info fi ticker tt) = Ret d ->
    (d = [] /\ exists key e, fi t key = Raise e /\ is_Exception e = true)
    \/ exists v1 v2 v3 v4 v5 v6,
         get "lastPrice" main.VNone = Ret v1
         /\ get "previousClose" main.VNone = Ret v2
         /\ get "open" main.VNone = Ret v3
         /\ get "dayHigh" main.VNone = Ret v4
         /\ get "dayLow" main.VNone = Ret v5
         /\ get "currency" (main.VStr "INR") = Ret v6
         /\ d = [("ticker", main.VStr (main.clean t));
                 ("current_price", v1); ("previous_close", v2);
                 ("open", v3); ("day_high", v4); ("day_low", v5);
                 ("currency", v6)].
Proof.
  intros t get d. subst get. unfold main.get_stock_info. fold t.
  unfold try_except, bind, main.info_call.
  destruct (main.info_get (fi t) "lastPrice" _) as [v1|e] eqn:E1;
    cbn -[main.info_get main.clean];
    [|apply info_get_Raise in E1; destruct (is_Exception e) eqn:He; cbn;
      [intros [= <-]; left; split; [reflexivity|now exists "lastPrice", e]
      |discriminate]].
  destruct (main.info_get (fi t) "previousClose" _) as [v2|e] eqn:E2;
    cbn -[main.info_get main.clean];
    [|apply info_get_Raise in E2; destruct (is_Exception e) eqn:He; cbn;
      [intros [= <-]; left; split; [reflexivity|now exists "previousClose", e]
      |discriminate]].
  destruct (main.info_get (fi t) "open" _) as [v3|e] eqn:E3;
    cbn -[main.info_get main.clean];
    [|apply info_get_Raise in E3; destruct (is_Exception e) eqn:He; cbn;
      [intros [= <-]; left; split; [reflexivity|now exists "open", e]
      |discriminate]].
  destruct (main.info_get (fi t) "dayHigh" _) as [v4|e] eqn:E4;
    cbn -[main.info_get main.clean];
    [|apply info_get_Raise in E4; destruct (is_Exception e) eqn:He; cbn;
      [intros [= <-]; left; split; [reflexivity|now exists "dayHigh", e]
      |discriminate]].
  destruct (main.info_get (fi t) "dayLow" _) as [v5|e] eqn:E5;
    cbn -[main.info_get main.clean];
    [|apply info_get_Raise in E5; destruct (is_Exception e) eqn:He; cbn;
      [intros [= <-]; left; split; [reflexivity|now exists "dayLow", e]
      |discriminate]].
  destruct (main.info_get (fi t) "currency" _) as [v6|e] eqn:E6;
    cbn -[main.info_get main.clean];
    [|apply info_get_Raise in E6; destruct (is_Exception e) eqn:He; cbn;
      [intros [= <-]; left; split; [reflexivity|now exists "currency", e]
      |discriminate]].
  intros [= <-]. right. exists v1, v2, v3, v4, v5, v6. now repeat split.
Qed.

Lemma get_stock_info_no_Exception fi ticker e :
  Eff.value (main.get_stock_info fi ticker tt) = Raise e ->
  is_Exception e = false.
Proof.
  unfold main.get_stock_info. apply try_except_no_Exception.
  intros e' st' e''. discriminate.
Qed.

End StockInfo.

(** X6. [get_stock_info] lets no [Exception] out.  What it returns is
    either the empty dictionary, and then a lookup in the fast info raised
    an [Exception], or a dictionary with exactly the seven keys, in the
    order of the source; in it a missing currency reads [INR] and a
    missing last price reads [None]. *)
Theorem get_stock_info_shape (fi : main.fast_info) (ticker : string) :
  let t := main.with_suffix ticker in
  let out := main.get_stock_info fi ticker tt in
  (forall e, Eff.value out = Py.Raise e -> Py.is_Exception e = false)
  /\ (forall d,
      Eff.value out = Py.Ret d ->
      (d = [] /\ exists key e, fi t key = Py.Raise e /\ Py.is_Exception e = true)
      \/ (Py.keys d
           = ["ticker"; "current_price"; "previous_close"; "open";
              "day_high"; "day_low"; "currency"]
          /\ (fi t "currency" = Py.Ret None ->
              Py.getitem "currency" d = Some (main.VStr "INR"))
          /\ (fi t "lastPrice" = Py.Ret None ->
              Py.getitem "current_price" d = Some main.VNone))).
Proof.
  intros t out. subst out. split.
  - intros e. apply get_stock_info_no_Exception.
  - intros d H. apply get_stock_info_run in H. fold t in H.
    destruct H as [H|(v1 & v2 & v3 & v4 & v5 & v6 & H1 & _ & _ & _ & _ & H6 & ->)];
      [now left|right].
    split; [reflexivity|]. split.
    + intros Hc. unfold main.info_get in H6. rewrite Hc in H6.
      injection H6 as <-. reflexivity.
    + intros Hp. unfold main.info_get in H1. rewrite Hp in H1.
      injection H1 as <-. reflexivity.
Qed.

Lemma get_stock_info_shape_witness :
  Py.getitem "currency"
    [("ticker", main.VStr "TCS");
     ("current_price", main.VFloat (Py.Dec false 3900 0));
     ("previous_close", main.VNone); ("open", main.VNone);
     ("day_high", main.VNone); ("day_low", main.VNone);
     ("currency", main.VStr "INR")]
  = Some (main.VStr "INR").
Proof.
  destruct (proj2 (get_stock_info_shape sample_fast_info "TCS") _ eq_refl)
    as [[H _]|(_ & H & _)]; [discriminate H|].
  apply H. reflexivity.
Defined.

(** X7. The [ticker] field is the bare symbol, whether [get_stock_info]
    was handed the bare symbol or the suffixed one. *)
Theorem get_stock_info_ticker (fi : main.fast_info) (b ticker : string)
    (d : Py.dict main.pyvalue) :
  bare b ->
  ticker = b \/ ticker = b +:+ ".NS" ->
  Eff.value (main.get_stock_info fi ticker tt) = Py.Ret d ->
  d <> [] ->
  Py.getitem "ticker" d = Some (main.VStr b).
Proof.
  intros Hb Ht H Hne. apply get_stock_info_run in H.
  destruct H as [[-> _]|(v1 & v2 & v3 & v4 & v5 & v6 & _ & _ & _ & _ & _ & _ & ->)];
    [congruence|].
  simpl. do 2 f_equal.
  destruct Ht as [->| ->].
  - rewrite with_suffix_bare by assumption. now apply clean_suffixed.
  - rewrite with_suffix_suffixed. now apply clean_suffixed.
Qed.

Lemma get_stock_info_ticker_witness :
  Py.getitem "ticker"
    [("ticker", main.VStr "TCS");
     ("current_price", main.VFloat (Py.Dec false 3900 0));
     ("previous_close", main.VNone); ("open", main.VNone);
     ("day_high", main.VNone); ("day_low", main.VNone);
     ("currency", main.VStr "INR")]
  = Some (main.VStr "TCS").
Proof.
  apply (get_stock_info_ticker sample_fast_info "TCS" "TCS.NS").
  - reflexivity.
  - right. reflexivity.
  - reflexivity.
  - discriminate.
Defined.

(* ================================================================== *)
(** ** stock_price.py: the two pagination helpers *)
(* ================================================================== *)

(** X8. [_has_next_page] never raises, not even when the browser call is
    interrupted: the bare [except:] turns everything into [False].  It
    answers [True] exactly when there is a driver and the search for the
    link returned, and it leaves the scraper as it was. *)
Theorem has_next_page_total (s : stock_price.ScreenerPriceScraper)
    (w : stock_price.world) :
  let out := stock_price._has_next_page (s, w) in
  (exists b, Eff.value out = Py.Ret b)
  /\ fst (Eff.store out) = s
  /\ (Eff.value out = Py.Ret true
      <-> exists sid page rest,
            stock_price.driver s = Some sid
            /\ stock_price.script w = stock_price.Returns page :: rest).
Proof.
  destruct s as [h [sid|] t], w as [[|[page|e] rest] n]; cbn;
    (split; [eexists; reflexivity|split; [reflexivity|]]);
    (split; [try discriminate|]);
    try (intros (sid' & page' & rest' & H1 & H2); discriminate).
  - intros _. now exists sid, page, rest.
  - reflexivity.
Qed.

Lemma has_next_page_total_witness :
  exists sid page rest,
    stock_price.driver (stock_price.Scraper true (Some 0) []) = Some sid
    /\ stock_price.script (stock_price.World [ok] 1)
       = stock_price.Returns page :: rest.
Proof.
  apply (proj1 (proj2 (proj2 (has_next_page_total
                                (stock_price.Scraper true (Some 0) [])
                                (stock_price.World [ok] 1))))).
  reflexivity.
Defined.

(** X9. [_click_next_page] lets no [Exception] out and leaves the scraper
    as it was.  It clicks at most once, and only on a link it has just
    found; when the click itself raises an [Exception], that is logged and
    the method returns. *)
Theorem click_next_page_safe (s : stock_price.ScreenerPriceScraper)
    (w : stock_price.world) :
  let out := stock_price._click_next_page (s, w) in
  (forall e, Eff.value out = Py.Raise e -> Py.is_Exception e = false)
  /\ fst (Eff.store out) = s
  /\ count is_click (Eff.events out) <= 1
  /\ (forall sid,
        In (stock_price.Call sid stock_price.Click) (Eff.events out) ->
        exists page rest,
          stock_price.driver s = Some sid
          /\ stock_price.script w = stock_price.Returns page :: rest)
  /\ (forall sid page name rest,
        stock_price.driver s = Some sid ->
        stock_price.script w
        = stock_price.Returns page
            :: stock_price.Raises (Py.Exception name) :: rest ->
        Eff.value out = Py.Ret tt
        /\ Eff.events out
           = [stock_price.Call sid stock_price.Find_Next;
              stock_price.Call sid stock_price.Click;
              stock_price.Log
                (Py.ERROR,
                 stock_price.Could_not_click_next_page (Py.Exception name))]).
Proof.
  intros out. subst out. split; [|split; [|split; [|split]]].
  - intros e. unfold stock_price._click_next_page.
    apply try_except_no_Exception. intros e' st' e''. discriminate.
  - destruct s as [h d t], w as [[|[page|e] [|[page'|e'] rest]] n];
      destruct d as [sid|]; cbn;
      try destruct (Py.is_Exception e); try destruct (Py.is_Exception e');
      reflexivity.
  - assert (H : at_most is_click 1 stock_price._click_next_page)
      by (eapply at_most_le; [bound|simpl; lia]).
    apply H.
  - intros sid0.
    destruct s as [h d t], w as [[|[page|e] rest] n]; destruct d as [sid|];
      cbn; try destruct (Py.is_Exception e); cbn;
      try (intros Hin; repeat (destruct Hin as [Hin|Hin]; try discriminate Hin);
           contradiction).
    destruct rest as [|[page'|e'] rest]; cbn;
      try destruct (Py.is_Exception e'); cbn;
      intros Hin; repeat (destruct Hin as [Hin|Hin]; try discriminate Hin);
      try contradiction; injection Hin as <-; eauto.
  - intros sid page name rest Hd Hs.
    destruct s as [h d t], w as [sc n]. simpl in Hd, Hs. subst d sc.
    cbn. now split.
Qed.

Lemma click_next_page_safe_witness :
  Eff.value (stock_price._click_next_page
               (stock_price.Scraper true (Some 0) [],
                stock_price.World
                  [ok; stock_price.Raises (Py.Exception "StaleElementReferenceException")]
                  1))
  = Py.Ret tt.
Proof.
  apply (proj2 (proj2 (proj2 (proj2 (click_next_page_safe
                                       (stock_price.Scraper true (Some 0) [])
                                       (stock_price.World
                                          [ok; stock_price.Raises (Py.Exception "StaleElementReferenceException")]
                                          1)))))
           0 [] "StaleElementReferenceException" []);
    reflexivity.
Defined.

(* ================================================================== *)
(** ** stock_price.py: how a scrape fails *)
(* ================================================================== *)

Section ScrapeFailures.
Import Py Eff stock_price.
Context {PY : Py.builtins}.

Lemma has_key_getitem {V} k (d : dict V) :
  has_key k d = true -> exists v, getitem k d = Some v.
Proof.
  induction d as [|[k' v'] d IH]; simpl; [discriminate|].
  destruct (String.eqb k' k); [now eexists|exact IH].
Qed.

(** On a table that is not empty [get_price] answers at once. *)
Lemma get_price_loaded_value q s w :
  stock_data s <> [] ->
  get_price q (s, w) = (Ret (resolve q (stock_data s)), (s, w), []).
Proof.
  intros Hne. rewrite get_price_loaded by assumption. unfold resolve.
  destruct (has_key q (stock_data s)) eqn:Hk; [|reflexivity].
  apply has_key_getitem in Hk as [v ->]. reflexivity.
Qed.

(** The [finally] block either returns, or [quit] raised and was the last
    thing to happen; it never touches the table. *)
Lemma release_driver_cases st :
  stock_data (fst (store (release_driver st))) = stock_data (fst st)
  /\ ((exists u, value (release_driver st) = Ret u)
      \/ exists sid e,
           value (release_driver st) = Raise e
           /\ events (release_driver st) = [Call sid Quit]).
Proof.
  destruct st as [[h [sid|] t] [[|[page|e] rest] n]]; cbn;
    (split; [reflexivity|]); eauto.
Qed.

(** The guarded part of a scrape lets no [Exception] out. *)
Lemma guarded_no_Exception st e :
  value (try_except (_setup_driver ;; scrape_pages) scrape_failed st) = Raise e ->
  is_Exception e = false.
Proof.
  apply try_except_no_Exception. intros e' st' e''. discriminate.
Qed.

Lemma value_try_finally {A} (body : Method A) final st :
  value (try_finally body final st)
  = match value (final (store (body st))) with
    | Ret _ => value (body st)
    | Raise e => Raise e
    end.
Proof.
  unfold try_finally. destruct (body st) as [[r st1] evs1].
  unfold store, value. simpl.
  now destruct (final st1) as [[[a|e] st'] evs].
Qed.

Lemma store_try_finally {A} (body : Method A) final st :
  store (try_finally body final st) = store (final (store (body st))).
Proof.
  unfold try_finally. destruct (body st) as [[r st1] evs1].
  unfold store. simpl.
  now destruct (final st1) as [[[a|e] st'] evs].
Qed.

Lemma value_emit_bind {B} ev (k : Method B) st :
  value ((emit ev ;; k) st) = value (k st).
Proof. unfold bind, emit. now rewrite value_after. Qed.

Lemma store_emit_bind {B} ev (k : Method B) st :
  store ((emit ev ;; k) st) = store (k st).
Proof. unfold bind, emit. now rewrite store_after. Qed.

End ScrapeFailures.

(** X10. An [Exception] escapes [scrape_all_prices] only when
    [driver.quit()] itself raises: then the call to [quit] is the last
    thing that happened.  Every other [Exception] is turned into the empty
    result. *)
Theorem scrape_raises_only_from_quit {PY : Py.builtins}
    (s : stock_price.ScreenerPriceScraper)
    (w : stock_price.world) (e : Py.exn) :
  let out := stock_price.scrape_all_prices (s, w) in
  Eff.value out = Py.Raise e ->
  Py.is_Exception e = true ->
  exists before sid,
    Eff.events out = before ++ [stock_price.Call sid stock_price.Quit].
Proof.
  intros out. subst out. unfold stock_price.scrape_all_prices.
  set (guarded := Eff.try_except _ _).
  rewrite value_emit_bind, value_try_finally, events_emit_bind, events_try_finally.
  destruct (release_driver_cases (Eff.store (guarded (s, w))))
    as [_ [[u Hu]|(sid & e' & Hv & Hev)]].
  - rewrite Hu. intros Hg He.
    apply guarded_no_Exception in Hg. congruence.
  - rewrite Hv, Hev. intros _ _.
    now exists (stock_price.Enter_scrape_all_prices :: Eff.events (guarded (s, w))), sid.
Qed.

Lemma scrape_raises_only_from_quit_witness :
  exists before sid,
    Eff.events
      (stock_price.scrape_all_prices
         (stock_price.init true,
          stock_price.World
            [ok; stock_price.Raises (Py.Exception "TimeoutException");
             stock_price.Raises (Py.Exception "WebDriverException")] 0))
    = before ++ [stock_price.Call sid stock_price.Quit].
Proof.
  apply (scrape_raises_only_from_quit (stock_price.init true)
           (stock_price.World
              [ok; stock_price.Raises (Py.Exception "TimeoutException");
               stock_price.Raises (Py.Exception "WebDriverException")] 0)
           (Py.Exception "WebDriverException"));
    reflexivity.
Defined.

Section ScrapeResult.
Import Py Eff stock_price.
Context {PY : Py.builtins}.

(** A chain of statements returns the stored table if its last part
    does. *)
Lemma bind_returns_stored {A} (m : Method A) (k : A -> Method PriceTable) :
  (forall a st t,
      value (k a st) = Ret t -> t = stock_data (fst (store (k a st)))) ->
  forall st t,
    value (bind m k st) = Ret t ->
    t = stock_data (fst (store (bind m k st))).
Proof.
  intros Hk st t. unfold bind.
  destruct (m st) as [[[a|e] st'] evs]; [|discriminate].
  rewrite value_after, store_after. apply Hk.
Qed.

(** When the pages are scraped without an exception, the table returned
    is the one stored in [self.stock_data]. *)
Lemma scrape_pages_returns_stored st t :
  value (scrape_pages st) = Ret t ->
  t = stock_data (fst (store (scrape_pages st))).
Proof.
  revert st t. unfold scrape_pages.
  do 9 (apply bind_returns_stored; intros ?).
  intros st t. cbn. now intros [= <-].
Qed.

End ScrapeResult.

(** X11. What [scrape_all_prices] returns is the table it stored in
    [self.stock_data], or the empty dictionary; the second happens on the
    [except] path, where the stored table is left as it is. *)
Theorem scrape_returns_stored_or_empty {PY : Py.builtins}
    (s : stock_price.ScreenerPriceScraper)
    (w : stock_price.world) (t : stock_price.PriceTable) :
  let out := stock_price.scrape_all_prices (s, w) in
  Eff.value out = Py.Ret t ->
  t = stock_price.stock_data (fst (Eff.store out)) \/ t = [].
Proof.
  intros out. subst out. unfold stock_price.scrape_all_prices.
  set (guarded := Eff.try_except _ _).
  rewrite value_emit_bind, value_try_finally, store_emit_bind, store_try_finally.
  destruct (release_driver_cases (Eff.store (guarded (s, w))))
    as [Hkeep [[u Hu]|(sid & e' & Hv & _)]]; [|rewrite Hv; discriminate].
  rewrite Hu, Hkeep. subst guarded. unfold Eff.try_except.
  pose proof (scrape_pages_returns_stored) as Hpages.
  unfold Eff.bind at 1 2.
  destruct (stock_price._setup_driver (s, w)) as [[[[]|e] st1] evs1].
  - specialize (Hpages st1).
    destruct (stock_price.scrape_pages st1) as [[[t'|e] st2] evs2]; cbn.
    + intros [= <-]. left. now apply Hpages.
    + destruct (Py.is_Exception e); cbn; [|discriminate].
      intros [= <-]. now right.
  - destruct (Py.is_Exception e); cbn; [|discriminate].
    intros [= <-]. now right.
Qed.

Lemma scrape_returns_stored_or_empty_witness :
  [("A", Py.Dec false 10 0); ("B", Py.Dec false 20 0)]
  = stock_price.stock_data
      (fst (Eff.store
              (stock_price.scrape_all_prices
                 (stock_price.init true, stock_price.World two_page_script 0))))
  \/ [("A", Py.Dec false 10 0); ("B", Py.Dec false 20 0)] = [].
Proof.
  apply (scrape_returns_stored_or_empty (stock_price.init true)
           (stock_price.World two_page_script 0)).
  reflexivity.
Defined.

Section ScrapePaths.
Import Py Eff stock_price.
Context {PY : Py.builtins}.




End ScrapePaths.

(** X12. A scrape that fails with an [Exception] before the first page is
    parsed - while loading the page, waiting for the table or reading the
    page source - returns the empty dictionary and leaves the table stored
    so far untouched; the browser it started is quit. *)
Theorem scrape_early_failure {PY : Py.builtins}
    (s : stock_price.ScreenerPriceScraper)
    (n : stock_price.session) (start quit : stock_price.reply)
    (oks : list stock_price.reply) (name : string)
    (rest : list stock_price.reply) :
  returns start = true ->
  forallb returns oks = true ->
  List.length oks <= 2 ->
  returns quit = true ->
  let out :=
    stock_price.scrape_all_prices
      (s, stock_price.World
            (start :: oks ++ stock_price.Raises (Py.Exception name)
               :: quit :: rest) n) in
  Eff.value out = Py.Ret []
  /\ stock_price.stock_data (fst (Eff.store out)) = stock_price.stock_data s
  /\ count is_quit (Eff.events out) = 1
  /\ stock_price.script (snd (Eff.store out)) = rest.
Proof.
  intros Hs Hoks Hlen Hq.
  apply returns_inv in Hs as [p0 ->]. apply returns_inv in Hq as [pq ->].
  destruct s as [h d t].
  destruct oks as [|o1 [|o2 [|o3 oks]]]; simpl in Hlen; [| | |lia];
    simpl in Hoks;
    repeat (apply andb_prop in Hoks as [? Hoks]);
    repeat match goal with
           | H : returns ?r = true |- _ => apply returns_inv in H as [? ->]
           end;
    cbn; repeat split.
Qed.

Lemma scrape_early_failure_witness :
  Eff.value (stock_price.scrape_all_prices
               (stock_price.Scraper true None tcs_table,
                stock_price.World timeout_script 0))
  = Py.Ret [].
Proof.
  apply (scrape_early_failure (stock_price.Scraper true None tcs_table) 0
           ok ok [ok] "TimeoutException" []);
    [reflexivity|reflexivity|simpl; lia|reflexivity].
Defined.





Section Resources.
Import Py Eff stock_price.
Context {PY : Py.builtins}.

Lemma count_new_session_setup st :
  count is_new_session (events (_setup_driver st)) = 1.
Proof.
  destruct st as [s w].
  destruct (setup_driver_cases s w) as [(e & w' & ->)|(w' & ->)]; reflexivity.
Qed.

Lemma scrape_failed_no_new_session e : at_most is_new_session 0 (scrape_failed e).
Proof. eapply at_most_le; [bound|simpl; lia]. Qed.

Lemma guarded_quits_never :
  at_most is_quit 0 (try_except (_setup_driver ;; scrape_pages) scrape_failed).
Proof. eapply at_most_le; [bound|simpl; lia]. Qed.

Lemma release_driver_quits_once : at_most is_quit 1 release_driver.
Proof.
  unfold release_driver.
  apply (at_most_bind is_quit 0 1); [apply at_most_gets|]. intros s.
  destruct (driver s); [|apply (at_most_le is_quit 0); [apply at_most_ret|lia]].
  apply (at_most_bind is_quit 1 0);
    [apply at_most_driver_call|intros _; now apply at_most_log].
Qed.

End Resources.

(** X15. Whatever the browser does, one call of [scrape_all_prices] makes
    exactly one attempt to start a browser and calls [quit] at most
    once. *)
Theorem scrape_one_browser {PY : Py.builtins}
    (s : stock_price.ScreenerPriceScraper)
    (w : stock_price.world) :
  let evs := Eff.events (stock_price.scrape_all_prices (s, w)) in
  count is_new_session evs = 1 /\ count is_quit evs <= 1.
Proof.
  intros evs. subst evs. unfold stock_price.scrape_all_prices.
  set (guarded := Eff.try_except _ _).
  rewrite events_emit_bind, events_try_finally, count_cons, count_cons, !count_app.
  cbn [is_new_session is_quit].
  pose proof (at_most_release_driver is_new_session
                (fun _ => eq_refl) (fun _ => eq_refl)
                (Eff.store (guarded (s, w)))) as Hrel.
  pose proof (release_driver_quits_once (Eff.store (guarded (s, w)))) as Hq.
  pose proof (guarded_quits_never (s, w)) as Hg. fold guarded in Hg.
  assert (Hn : count is_new_session (Eff.events (guarded (s, w))) = 1).
  { subst guarded. unfold Eff.try_except, Eff.bind.
    pose proof (count_new_session_setup (s, w)) as H1.
    destruct (stock_price._setup_driver (s, w)) as [[[[]|e] st1] evs1];
      unfold Eff.events in H1; simpl in H1.
    - pose proof (scrape_pages_no_new_session st1) as H2.
      destruct (stock_price.scrape_pages st1) as [[[t|e] st2] evs2];
        unfold Eff.events in H2; simpl in H2; cbn -[count].
      + rewrite count_app. lia.
      + destruct (Py.is_Exception e); cbn -[count].
        * rewrite !count_app, count_cons, count_nil. simpl. lia.
        * rewrite count_app. lia.
    - destruct (Py.is_Exception e); cbn -[count]; [|exact H1].
      rewrite count_app, count_cons, count_nil. simpl. lia. }
  lia.
Qed.



(* ================================================================== *)
(** ** stock_price.py: more on lookup and search *)
(* ================================================================== *)

Section SearchFacts.
Import Py Eff stock_price.
Context {PY : Py.builtins}.

Lemma append_assoc (a b c : string) : (a +:+ b) +:+ c = a +:+ (b +:+ c).
Proof.
  induction a as [|x a IH]; [reflexivity|].
  change (String x ((a +:+ b) +:+ c) = String x (a +:+ (b +:+ c))).
  now f_equal.
Qed.

Lemma contains_refl (s : string) : contains s s = true.
Proof. apply contains_spec. exists "", "". now rewrite append_empty_r. Qed.

(** A text found in a part of another is found in the whole. *)
Lemma contains_trans (a b c : string) :
  contains a b = true -> contains b c = true -> contains a c = true.
Proof.
  intros (pre & post & ->)%contains_spec (pre' & post' & ->)%contains_spec.
  apply contains_spec. exists (pre' +:+ pre), (post +:+ post').
  now rewrite !append_assoc.
Qed.

Lemma In_matches q items name price :
  In (name, price) (matches q items)
  <-> In (name, price) items /\ contains q (lower name) = true.
Proof. unfold matches. now rewrite List.filter_In. Qed.

Lemma first_match_None q items :
  first_match q items = None <-> matches q items = [].
Proof.
  unfold matches. induction items as [|[n p] items IH]; simpl; [easy|].
  destruct (contains q (lower n)); [split; discriminate|exact IH].
Qed.

Lemma first_match_Some q items p :
  first_match q items = Some p -> exists name, In (name, p) (matches q items).
Proof.
  unfold matches. induction items as [|[n p'] items IH]; simpl; [discriminate|].
  destruct (contains q (lower n)).
  - intros [= ->]. exists n. now left.
  - exact IH.
Qed.

(** A key of the table is among the matches of itself as a query. *)
Lemma key_matches q p items :
  In (q, p) items -> In (q, p) (matches (lower q) items).
Proof. intros H. apply In_matches. split; [exact H|apply contains_refl]. Qed.

Lemma resolve_None q table :
  resolve q table = None <-> matches (lower q) table = [].
Proof.
  unfold resolve. destruct (has_key q table) eqn:Hk.
  - apply has_key_getitem in Hk as [v Hv]. rewrite Hv.
    apply getitem_Some_In, key_matches in Hv.
    split; [discriminate|]. intros E. now rewrite E in Hv.
  - apply first_match_None.
Qed.

Lemma resolve_Some q table p :
  resolve q table = Some p -> exists name, In (name, p) (matches (lower q) table).
Proof.
  unfold resolve. destruct (has_key q table).
  - intros H. exists q. now apply key_matches, getitem_Some_In.
  - apply first_match_Some.
Qed.

(** What a loaded fetcher answers. *)
Lemma search_stock_loaded q f w :
  prices_loaded f = true ->
  search_stock q (f, w)
  = (Ret (matches (lower q) (stock_data (scraper f))), (f, w), []).
Proof.
  intros Hl. unfold search_stock, bind, gets, when. cbn. now rewrite Hl.
Qed.

Lemma search_stocks_loaded_value qs f w :
  prices_loaded f = true ->
  search_stocks qs (f, w)
  = (Ret (map (fun q => matches (lower q) (stock_data (scraper f))) qs),
     (f, w), []).
Proof.
  intros Hl. induction qs as [|q qs IH]; [reflexivity|].
  simpl. unfold bind. now rewrite search_stock_loaded, IH.
Qed.

End SearchFacts.

(** X17. Lookup and search agree: on a loaded table that is not empty,
    [get_price] answers [None] exactly when [search_stock] finds nothing,
    and a price [get_price] returns is the price of one of the entries
    [search_stock] lists. *)
Theorem get_price_agrees_with_search {PY : Py.builtins}
    (f : stock_price.InteractiveStockFetcher)
    (w : stock_price.world) (q : string) :
  stock_price.prices_loaded f = true ->
  stock_price.stock_data (stock_price.scraper f) <> [] ->
  let found := Eff.value (stock_price.get_price q (stock_price.scraper f, w)) in
  let search := Eff.value (stock_price.search_stock q (f, w)) in
  (found = Py.Ret None <-> search = Py.Ret [])
  /\ (forall p,
        found = Py.Ret (Some p) ->
        exists name listed, search = Py.Ret listed /\ In (name, p) listed).
Proof.
  intros Hl Hne found search. subst found search.
  rewrite get_price_loaded_value, search_stock_loaded by assumption.
  unfold Eff.value. simpl fst. split.
  - split.
    + intros [= H]. f_equal. now apply resolve_None.
    + intros [= H]. f_equal. now apply resolve_None.
  - intros p [= H]. apply resolve_Some in H as [name H].
    now exists name, (stock_price.matches (Py.lower q)
                        (stock_price.stock_data (stock_price.scraper f))).
Qed.

Lemma get_price_agrees_with_search_witness :
  exists name listed,
    Eff.value (stock_price.search_stock "tcs"
                 (stock_price.Fetcher (stock_price.Scraper true None tcs_table) true,
                  stock_price.World [] 0))
    = Py.Ret listed
    /\ In (name, Py.Dec false 50 0) listed.
Proof.
  apply (proj2 (get_price_agrees_with_search
                  (stock_price.Fetcher (stock_price.Scraper true None tcs_table) true)
                  (stock_price.World [] 0) "tcs" eq_refl ltac:(discriminate))).
  reflexivity.
Defined.

(** X18. Letter case in the query does not matter to the search, and a
    query that differs from a name of the table only by letter case is
    always found by [get_price] - as a partial match, so the price may be
    that of an earlier entry whose name contains it. *)
Theorem query_case_insensitive {PY : Py.builtins}
    (f : stock_price.InteractiveStockFetcher)
    (w : stock_price.world) (q : string) :
  stock_price.search_stock (Py.lower q) (f, w) = stock_price.search_stock q (f, w)
  /\ (forall k v,
        In (k, v) (stock_price.stock_data (stock_price.scraper f)) ->
        Py.lower q = Py.lower k ->
        exists p name,
          Eff.value (stock_price.get_price q (stock_price.scraper f, w))
          = Py.Ret (Some p)
          /\ In (name, p) (stock_price.stock_data (stock_price.scraper f))
          /\ Py.contains (Py.lower q) (Py.lower name) = true).
Proof.
  split.
  - unfold stock_price.search_stock. now rewrite Py.lower_of_lower.
  - intros k v Hin Hq.
    assert (Hne : stock_price.stock_data (stock_price.scraper f) <> [])
      by (intros E; now rewrite E in Hin).
    rewrite get_price_loaded_value by assumption. unfold Eff.value. simpl fst.
    destruct (resolve q (stock_price.stock_data (stock_price.scraper f)))
      as [p|] eqn:E.
    + destruct (resolve_Some _ _ _ E) as [name Hm].
      apply In_matches in Hm as [Hm1 Hm2]. now exists p, name.
    + exfalso. apply resolve_None in E.
      assert (Hm : In (k, v) (stock_price.matches (Py.lower q)
                                (stock_price.stock_data (stock_price.scraper f)))).
      { apply In_matches. split; [exact Hin|]. rewrite Hq. apply contains_refl. }
      now rewrite E in Hm.
Qed.

Lemma query_case_insensitive_witness :
  exists p name,
    Eff.value (stock_price.get_price "tcs"
                 (stock_price.Scraper true None tcs_table, stock_price.World [] 0))
    = Py.Ret (Some p)
    /\ In (name, p) tcs_table
    /\ Py.contains (Py.lower "tcs") (Py.lower name) = true.
Proof.
  apply (proj2 (query_case_insensitive
                  (stock_price.Fetcher (stock_price.Scraper true None tcs_table) true)
                  (stock_price.World [] 0) "tcs")
           "TCS" (Py.Dec false 3900 0)).
  - simpl. right. left. reflexivity.
  - reflexivity.
Defined.

(** X19. Narrowing the query never adds results: when the lowercase
    form of [q1] occurs in the lowercase form of [q2], whatever a loaded
    fetcher lists for [q2] it also lists for [q1]. *)
Theorem search_refines {PY : Py.builtins}
    (f : stock_price.InteractiveStockFetcher)
    (w : stock_price.world) (q1 q2 : string)
    (entry : string * Py.pyfloat) (narrow wide : list (string * Py.pyfloat)) :
  stock_price.prices_loaded f = true ->
  Py.contains (Py.lower q1) (Py.lower q2) = true ->
  Eff.value (stock_price.search_stock q2 (f, w)) = Py.Ret narrow ->
  Eff.value (stock_price.search_stock q1 (f, w)) = Py.Ret wide ->
  In entry narrow -> In entry wide.
Proof.
  intros Hl Hq. rewrite !search_stock_loaded by assumption.
  unfold Eff.value. simpl fst. intros [= <-] [= <-].
  destruct entry as [name price]. rewrite !In_matches.
  intros [Hin Hc]. split; [exact Hin|].
  exact (contains_trans _ _ _ Hq Hc).
Qed.

Lemma search_refines_witness :
  In ("TCS Digital", Py.Dec false 50 0) tcs_table.
Proof.
  apply (search_refines
           (stock_price.Fetcher (stock_price.Scraper true None tcs_table) true)
           (stock_price.World [] 0) "CS" "tcs dig"
           ("TCS Digital", Py.Dec false 50 0)
           [("TCS Digital", Py.Dec false 50 0)] tcs_table);
    try reflexivity.
  simpl. left. reflexivity.
Defined.

(** X20. The empty query is not rejected by [get_price] either: on a
    table that is not empty, and unless the empty string is itself a name,
    it returns the price of the first entry. *)
Theorem get_price_empty_query {PY : Py.builtins}
    (s : stock_price.ScreenerPriceScraper)
    (w : stock_price.world) (name : string) (price : Py.pyfloat)
    (rest : stock_price.PriceTable) :
  stock_price.stock_data s = (name, price) :: rest ->
  ~ In "" (Py.keys (stock_price.stock_data s)) ->
  stock_price.get_price "" (s, w) = (Py.Ret (Some price), (s, w), []).
Proof.
  intros Hs Hk. rewrite get_price_loaded_value by (rewrite Hs; discriminate).
  unfold resolve. apply has_key_false in Hk. rewrite Hk, Hs. simpl.
  now rewrite Py.lower_of_empty, contains_empty.
Qed.

Lemma get_price_empty_query_witness :
  stock_price.get_price ""
    (stock_price.Scraper true None tcs_table, stock_price.World [] 0)
  = (Py.Ret (Some (Py.Dec false 50 0)),
     (stock_price.Scraper true None tcs_table, stock_price.World [] 0), []).
Proof.
  apply (get_price_empty_query (stock_price.Scraper true None tcs_table)
           (stock_price.World [] 0) "TCS Digital" (Py.Dec false 50 0)
           [("TCS", Py.Dec false 3900 0)]).
  - reflexivity.
  - simpl. intuition discriminate.
Defined.

(** X21. [InteractiveStockFetcher] never retries a failed load: when the
    browser cannot be started on the first search, the search finds
    nothing, the prices are marked as loaded all the same, and every later
    search finds nothing without touching the browser again. *)
Theorem fetcher_failed_load_sticks {PY : Py.builtins}
    (f : stock_price.InteractiveStockFetcher)
    (n : stock_price.session) (name : string) (rest : list stock_price.reply)
    (q : string) (qs : list string) :
  stock_price.prices_loaded f = false ->
  stock_price.driver (stock_price.scraper f) = None ->
  stock_price.stock_data (stock_price.scraper f) = [] ->
  let out :=
    stock_price.search_stock q
      (f, stock_price.World (stock_price.Raises (Py.Exception name) :: rest) n) in
  Eff.value out = Py.Ret []
  /\ stock_price.prices_loaded (fst (Eff.store out)) = true
  /\ stock_price.script (snd (Eff.store out)) = rest
  /\ search_stocks qs (Eff.store out)
     = (Py.Ret (map (fun _ => []) qs), Eff.store out, []).
Proof.
  intros Hl Hd Ht out. destruct f as [[h d t] loaded].
  simpl in Hl, Hd, Ht. subst loaded d t.
  assert (E : out = (Py.Ret [],
                     (stock_price.Fetcher (stock_price.Scraper h None []) true,
                      stock_price.World rest n),
                     Eff.events out)) by reflexivity.
  rewrite E. unfold Eff.value, Eff.store. simpl fst. simpl snd.
  repeat split.
  now rewrite search_stocks_loaded_value.
Qed.

Lemma fetcher_failed_load_sticks_witness :
  Eff.value
    (stock_price.search_stock "TCS"
       (stock_price.init_fetcher,
        stock_price.World
          (stock_price.Raises (Py.Exception "SessionNotCreatedException")
             :: two_page_script) 0))
  = Py.Ret [].
Proof.
  apply (fetcher_failed_load_sticks stock_price.init_fetcher 0
           "SessionNotCreatedException" two_page_script "TCS" []);
    reflexivity.
Defined.

(* ================================================================== *)
(** ** stock_price.py: more on the table extractor *)
(* ================================================================== *)

Section ExtractorMore.
Import Py stock_price.
Context {PY : Py.builtins}.

Lemma table_after_length rows : forall prices,
  List.length (table_after prices rows)
  <= List.length prices + List.length rows.
Proof.
  induction rows as [|r rows IH]; intros prices; simpl; [lia|].
  specialize (IH (fst (parse_row prices r))).
  destruct (parse_row_cases prices r) as [E|(n & v & _ & E)]; rewrite E in *.
  - lia.
  - pose proof (length_setitem n v prices). lia.
Qed.

Lemma getitem_table_after_other rows : forall prices name,
  (forall row price, In row rows -> ~ valid_row row name price) ->
  getitem name (table_after prices rows) = getitem name prices.
Proof.
  induction rows as [|r rows IH]; intros prices name Hno; [reflexivity|].
  simpl. rewrite IH by (intros row price Hin; apply Hno; now right).
  destruct (parse_row_cases prices r) as [E|(n & v & Hv & E)]; rewrite E;
    [reflexivity|].
  rewrite getitem_setitem. destruct (String.eqb_spec n name) as [->|_];
    [|reflexivity].
  exfalso. apply (Hno r v); [now left|exact Hv].
Qed.

End ExtractorMore.

(** X22. Duplicate names: the last row wins.  When a company name comes
    up in several data rows of the first table, the price stored under it
    is the price of the last valid row with that name. *)
Theorem parse_table_last_row_wins {PY : Py.builtins}
    (html : bs4.html) (table header : bs4.node)
    (pre : list bs4.node) (row : bs4.node) (post : list bs4.node)
    (name : string) (price : Py.pyfloat) :
  bs4.find "table" (bs4.BeautifulSoup html) = Some table ->
  bs4.find_all "tr" table = header :: pre ++ row :: post ->
  valid_row row name price ->
  (forall later other, In later post -> ~ valid_row later name other) ->
  Py.getitem name (fst (stock_price._parse_table html)) = Some price.
Proof.
  intros Ht Hrows Hv Hpost.
  unfold stock_price._parse_table. rewrite Ht, Hrows. simpl tail.
  rewrite parse_rows_table, table_after_app. simpl.
  rewrite getitem_table_after_other by assumption.
  rewrite (parse_row_valid _ _ _ _ Hv). simpl.
  rewrite getitem_setitem. now rewrite String.eqb_refl.
Qed.

Lemma parse_table_last_row_wins_witness :
  Py.getitem "A" (fst (stock_price._parse_table (page [repeated_name_table])))
  = Some (Py.Dec false 30 0).
Proof.
  apply (parse_table_last_row_wins (page [repeated_name_table])
           repeated_name_table header_row
           [tr [td "1"; td_link "A"; td "10.0"];
            tr [td "2"; td_link "B"; td "20.0"]]
           (tr [td "3"; td_link " A "; td "30.0"]) []).
  - reflexivity.
  - reflexivity.
  - econstructor; try reflexivity; simpl; lia.
  - intros later other [].
Defined.

(** X23. The names under which prices are stored carry no blanks at
    either end: stripping a key of the table again gives the key. *)
Theorem parse_table_keys_stripped {PY : Py.builtins}
    (html : bs4.html) (name : string)
    (price : Py.pyfloat) :
  In (name, price) (fst (stock_price._parse_table html)) ->
  Py.strip name = name.
Proof.
  unfold stock_price._parse_table.
  destruct (bs4.find "table" (bs4.BeautifulSoup html)) as [table|]; simpl; [|easy].
  rewrite parse_rows_table. intros H.
  apply table_after_In in H as [[]|(row & _ & Hv)].
  destruct Hv as [cols nc pc link _ _ _ _ _ <- _]. apply Py.strip_of_strip.
Qed.

Lemma parse_table_keys_stripped_witness : Py.strip "A" = "A".
Proof.
  apply (parse_table_keys_stripped (page [repeated_name_table]) "A"
           (Py.Dec false 30 0)).
  simpl. left. reflexivity.
Defined.

(** X24. The table never has more entries than the first table of the
    page has rows after its first one.  A table with a single row, even
    one that would be a valid data row, or with no row at all, gives the
    empty table and logs nothing. *)
Theorem parse_table_size {PY : Py.builtins}
    (html : bs4.html) (table : bs4.node) :
  bs4.find "table" (bs4.BeautifulSoup html) = Some table ->
  let rows := bs4.find_all "tr" table in
  List.length (fst (stock_price._parse_table html)) <= List.length rows - 1
  /\ (List.length rows <= 1 -> stock_price._parse_table html = ([], [])).
Proof.
  intros Ht rows. subst rows. unfold stock_price._parse_table. rewrite Ht.
  split.
  - rewrite parse_rows_table.
    pose proof (table_after_length (tail (bs4.find_all "tr" table)) []) as H.
    destruct (bs4.find_all "tr" table); simpl in *; lia.
  - destruct (bs4.find_all "tr" table) as [|r [|r' rows]]; simpl;
      [reflexivity|reflexivity|lia].
Qed.

Lemma parse_table_size_witness :
  stock_price._parse_table headerless_page = ([], []).
Proof.
  apply (parse_table_size headerless_page (bs4.Tag "table" [reliance_row])
           eq_refl).
  simpl. lia.
Defined.

(* ================================================================== *)
(** ** stock_price.py: whose browser is called *)
(* ================================================================== *)

Section OwnRules.
Import Py Eff stock_price.
Context {PY : Py.builtins}.

Lemma own_silent {A} (m : Method A) :
  (forall st, events (m st) = []) -> calls_own m.
Proof. intros H st sid op. now rewrite H. Qed.

Lemma own_emit ev : (forall sid op, ev <> Call sid op) -> calls_own (emit ev).
Proof. intros H st sid op [E|[]]. now destruct (H sid op). Qed.

Lemma own_bind {A B} (m : Method A) (k : A -> Method B) :
  calls_own m -> keeps_driver m -> (forall a, calls_own (k a)) ->
  calls_own (bind m k).
Proof.
  intros Hm Hkeep Hk st sid op. unfold bind.
  specialize (Hm st sid op). specialize (Hkeep st).
  destruct (m st) as [[[a|e] st'] evs]; unfold events, store in Hm, Hkeep;
    simpl in Hm, Hkeep; [|exact Hm].
  rewrite events_after, in_app_iff. intros [H|H]; [auto|].
  rewrite <- Hkeep. exact (Hk a st' sid op H).
Qed.

Lemma own_try_except {A} (body : Method A) handler :
  calls_own body -> keeps_driver body -> (forall e, calls_own (handler e)) ->
  calls_own (try_except body handler).
Proof.
  intros Hb Hkeep Hh st sid op. unfold try_except.
  specialize (Hb st sid op). specialize (Hkeep st).
  destruct (body st) as [[[a|e] st'] evs]; unfold events, store in Hb, Hkeep;
    simpl in Hb, Hkeep; [exact Hb|].
  destruct (is_Exception e); [|exact Hb].
  rewrite events_after, in_app_iff. intros [H|H]; [auto|].
  rewrite <- Hkeep. exact (Hh e st' sid op H).
Qed.

Lemma own_try_except_all {A} (body handler : Method A) :
  calls_own body -> keeps_driver body -> calls_own handler ->
  calls_own (try_except_all body handler).
Proof.
  intros Hb Hkeep Hh st sid op. unfold try_except_all.
  specialize (Hb st sid op). specialize (Hkeep st).
  destruct (body st) as [[[a|e] st'] evs]; unfold events, store in Hb, Hkeep;
    simpl in Hb, Hkeep; [exact Hb|].
  rewrite events_after, in_app_iff. intros [H|H]; [auto|].
  rewrite <- Hkeep. exact (Hh st' sid op H).
Qed.

Lemma own_when b (m : Method unit) : calls_own m -> calls_own (when b m).
Proof. intros H. destruct b; [exact H|]. now apply own_silent. Qed.

Lemma own_driver_call op : calls_own (driver_call op).
Proof.
  intros [[h [sid0|] t] [[|[page|e] rest] n]] sid op'; cbn;
    intros H; repeat (destruct H as [H|H]; try discriminate H);
    try contradiction; now injection H as -> _.
Qed.

Lemma own_call_parse_table html : calls_own (call_parse_table html).
Proof.
  intros st sid op. cbn. rewrite app_nil_r, in_map_iff.
  now intros (r & [=] & _).
Qed.

End OwnRules.

(** Shows that a composed computation calls only the browser of
    [self.driver]. *)
Ltac owned :=
  lazymatch goal with
  | |- calls_own (Eff.bind _ _) =>
      apply own_bind; [owned | kept | intros; owned]
  | |- calls_own (Eff.ret _) => now apply own_silent
  | |- calls_own (Eff.raise _) => now apply own_silent
  | |- calls_own stock_price.self => now apply own_silent
  | |- calls_own (stock_price.assign _) => now apply own_silent
  | |- calls_own (stock_price.log _ _) => apply own_emit; discriminate
  | |- calls_own (stock_price.sleep _) => apply own_emit; discriminate
  | |- calls_own (Eff.when _ _) => apply own_when; owned
  | |- calls_own (Eff.try_except _ _) =>
      apply own_try_except; [owned | kept | intros; owned]
  | |- calls_own (Eff.try_except_all _ _) =>
      apply own_try_except_all; [owned | kept | owned]
  | |- calls_own (stock_price.call_parse_table _) => apply own_call_parse_table
  | |- calls_own (stock_price.driver_call _) => apply own_driver_call
  | |- calls_own stock_price._has_next_page =>
      unfold stock_price._has_next_page; owned
  | |- calls_own stock_price._click_next_page =>
      unfold stock_price._click_next_page; owned
  | |- calls_own stock_price.scrape_pages =>
      unfold stock_price.scrape_pages; owned
  end.

Section Ownership.
Import Py Eff stock_price.
Context {PY : Py.builtins}.

Lemma scrape_pages_calls_own : calls_own scrape_pages.
Proof. owned. Qed.

Lemma release_driver_calls_own : calls_own release_driver.
Proof.
  intros [[h [sid0|] t] [[|[page|e] rest] n]] sid op; cbn;
    intros H; repeat (destruct H as [H|H]; try discriminate H);
    try contradiction; now injection H as -> _.
Qed.

End Ownership.

(** X25. A scrape that started a browser talks to no other: every call it
    makes on a driver, from loading the page to [quit], is made on the
    session it created, also when the scraper still held the session of an
    earlier scrape. *)
Theorem scrape_calls_own_session {PY : Py.builtins}
    (s : stock_price.ScreenerPriceScraper)
    (w : stock_price.world) (options : list string)
    (sid sid' : stock_price.session) (op : stock_price.driver_op) :
  let evs := Eff.events (stock_price.scrape_all_prices (s, w)) in
  In (stock_price.New_session options (Some sid)) evs ->
  In (stock_price.Call sid' op) evs ->
  sid' = sid.
Proof.
  intros evs. subst evs. unfold stock_price.scrape_all_prices.
  set (guarded := Eff.try_except _ _).
  rewrite events_emit_bind, events_try_finally.
  intros Hnew Hcall.
  assert (Hg : In (stock_price.New_session options (Some sid))
                  (Eff.events (guarded (s, w)))).
  { destruct Hnew as [[=]|Hin]. apply in_app_iff in Hin as [Hin|Hin]; [exact Hin|].
    exfalso.
    pose proof (at_most_release_driver is_new_session
                  (fun _ => eq_refl) (fun _ => eq_refl)
                  (Eff.store (guarded (s, w)))) as H0.
    apply (count_zero_In is_new_session) in Hin; [discriminate|lia]. }
  pose proof (guarded_session s w options sid Hg) as Hd. fold guarded in Hd.
  destruct Hcall as [[=]|Hcall]. apply in_app_iff in Hcall as [Hcall|Hcall].
  - clear Hd. subst guarded. unfold Eff.try_except, Eff.bind in Hg, Hcall.
    destruct (setup_driver_cases s w) as [(e & w' & E)|(w' & E)];
      rewrite E in Hg, Hcall; clear E.
    + destruct (Py.is_Exception e); cbn in Hcall;
        repeat (destruct Hcall as [Hcall|Hcall]; try discriminate Hcall);
        contradiction.
    + set (st1 := (stock_price.set_driver (Some (stock_price.next_session w)) s, w'))
        in *.
      pose proof (scrape_pages_calls_own st1 sid' op) as Hown.
      pose proof (scrape_pages_no_new_session st1) as Hn.
      destruct (stock_price.scrape_pages st1) as [[r st2] evs2].
      unfold Eff.events in Hown, Hn. simpl in Hown, Hn.
      assert (Hsid : sid = stock_price.next_session w).
      { revert Hg.
        destruct r as [a|e]; simpl; [|destruct (Py.is_Exception e); simpl];
          intros [[= _ <-]|[[=]|Hin]]; try reflexivity;
          try (apply in_app_iff in Hin as [Hin|[[=]|[]]]);
          apply (count_zero_In is_new_session) in Hin; try discriminate; lia. }
      assert (Hin2 : In (stock_price.Call sid' op) evs2).
      { revert Hcall.
        destruct r as [a|e]; simpl; [|destruct (Py.is_Exception e); simpl];
          intros [[=]|[[=]|Hin]]; try exact Hin.
        now apply in_app_iff in Hin as [Hin|[[=]|[]]]. }
      specialize (Hown Hin2). injection Hown as <-. now rewrite Hsid.
  - apply release_driver_calls_own in Hcall. congruence.
Qed.

Lemma scrape_calls_own_session_witness : 7 = 7.
Proof.
  apply (scrape_calls_own_session
           (stock_price.Scraper true (Some 3) tcs_table)
           (stock_price.World two_page_script 7)
           (stock_price.chrome_options true) 7 7 stock_price.Quit);
    simpl; tauto.
Defined.

(* ================================================================== *)
(** ** main.py: the reference list of tickers *)
(* ================================================================== *)

Lemma NIFTY50_TICKERS_NoDup : List.NoDup NIFTY50_TICKERS.
Proof.
  assert (E : List.nodup string_dec NIFTY50_TICKERS = NIFTY50_TICKERS)
    by (vm_compute; reflexivity).
  rewrite <- E. apply List.NoDup_nodup.
Qed.

Lemma NIFTY50_TICKERS_bare : Forall bare NIFTY50_TICKERS.
Proof. unfold NIFTY50_TICKERS. repeat (constructor; [reflexivity|]). constructor. Qed.

(** X26. The reference list holds fifty tickers, all different and none
    with the [.NS] suffix, so a batch over it is keyed by the tickers
    themselves: with a provider that is not interrupted, the result lists
    every ticker that got a price under its own name, in the order of the
    list. *)
Theorem get_multiple_prices_NIFTY50 (yf : main.provider) :
  List.length NIFTY50_TICKERS = 50
  /\ List.NoDup NIFTY50_TICKERS
  /\ Forall bare NIFTY50_TICKERS
  /\ ((forall t e, In t NIFTY50_TICKERS ->
                   Eff.value (main.get_price yf t tt) <> Py.Raise e) ->
      Eff.value (main.get_multiple_prices yf NIFTY50_TICKERS tt)
      = Py.Ret (omap (fun t => option_map (pair t) (quote yf t))
                  NIFTY50_TICKERS)).
Proof.
  split; [reflexivity|]. split; [apply NIFTY50_TICKERS_NoDup|].
  split; [apply NIFTY50_TICKERS_bare|].
  intros Hok. unfold main.get_multiple_prices.
  rewrite (fetch_each_bare yf NIFTY50_TICKERS []);
    auto using NIFTY50_TICKERS_NoDup, NIFTY50_TICKERS_bare.
Qed.

Lemma get_multiple_prices_NIFTY50_witness :
  Eff.value (main.get_multiple_prices sample_provider NIFTY50_TICKERS tt)
  = Py.Ret [("TCS", Py.Dec false 3900 0); ("INFY", Py.Dec false 15005 (-1))].
Proof.
  rewrite (proj2 (proj2 (proj2 (get_multiple_prices_NIFTY50 sample_provider)))).
  - reflexivity.
  - intros t e _. unfold main.get_price, sample_provider.
    cbn -[String.eqb main.with_suffix].
    destruct (String.eqb (main.with_suffix t) "TCS.NS"); [discriminate|].
    destruct (String.eqb (main.with_suffix t) "INFY.NS"); discriminate.
Defined.
